(** * ABB-Inverter-Arduino: a shallow embedding of [src/main.cpp]

    The firmware polls an ABB Aurora inverter, keeps a JSON status snapshot,
    publishes it over MQTT and reports the day's energy to PVOutput.

    Conventions of the embedding:
    - [unsigned long] is 32 bits on the ESP8266: a [Z] in [0, 2^32) with the
      wrap-around of every operation written out ([ULong]);
    - [float] is IEEE binary32, taken from [SpecFloat] with [prec = 24] and
      [emax = 128] ([Float32]);
    - C strings are [string]s; the fixed-capacity buffers of the source are
      rendered by explicit truncation ([CStr]);
    - every answer of an external collaborator (clock, inverter, broker, HTTP
      client, WiFi) is an explicit input of the function that asks for it, and
      every outward action is recorded in a trace of [Event]s;
    - the macros of the absent [defs.h] and the library functions the source
      calls ([TimeLib], the [%.2f] conversion) are parameters. *)

From Stdlib Require Import ZArith List String Ascii Bool Lia SpecFloat.
Import ListNotations.

Open Scope string_scope.
Open Scope Z_scope.

(** ** 32-bit unsigned arithmetic *)

Module ULong.

Definition modulus : Z := 2 ^ 32.

Definition wrap (x : Z) : Z := x mod modulus.

Definition add (a b : Z) : Z := wrap (a + b).
Definition sub (a b : Z) : Z := wrap (a - b).
Definition mul (a b : Z) : Z := wrap (a * b).
Definition div (a b : Z) : Z := a / b.

(** [a >= b] on unsigned values. *)
Definition geb (a b : Z) : bool := b <=? a.

Definition in_range (x : Z) : Prop := 0 <= x < modulus.

End ULong.

(** ** IEEE binary32 *)

Module Float32.

Definition float : Type := spec_float.

Definition prec : Z := 24.
Definition emax : Z := 128.

Definition NAN : float := S754_nan.

Definition isnan (x : float) : bool :=
  match x with
  | S754_nan => true
  | _ => false
  end.

Definition add (x y : float) : float := SFadd prec emax x y.

(** The float nearest to an integer (round to nearest even). *)
Definition of_Z (z : Z) : float := binary_normalize prec emax z 0 false.

End Float32.

(** ** C strings in fixed-capacity buffers *)

Module CStr.

(** The first [n] characters of [s]. *)
Fixpoint take (n : nat) (s : string) : string :=
  match n, s with
  | O, _ => EmptyString
  | S _, EmptyString => EmptyString
  | S k, String c r => String c (take k r)
  end.

(** [snprintf(buf, size, ...)] stores at most [size - 1] characters of the
    expansion [s]. *)
Definition snprintf (size : nat) (s : string) : string := take (size - 1) s.

(** [strncpy(buf, src, n)] into a zeroed buffer longer than [n]. *)
Definition strncpy (src : string) (n : nat) : string := take n src.

Definition digit (d : Z) : ascii := ascii_of_nat (48 + Z.to_nat d).

Fixpoint dec_digits (fuel : nat) (n : Z) (acc : string) : string :=
  match fuel with
  | O => acc
  | S f =>
      let acc' := String (digit (n mod 10)) acc in
      if n / 10 =? 0 then acc' else dec_digits f (n / 10) acc'
  end.

(** [%lu] of a 32-bit value: at most ten digits. *)
Definition fmt_lu (n : Z) : string := dec_digits 10 n EmptyString.

Fixpoint zeros (n : nat) : string :=
  match n with
  | O => EmptyString
  | S k => String "0"%char (zeros k)
  end.

(** [%0<width>d] of an [int]: the sign first, then zeros up to the width. *)
Definition fmt_0d (width : nat) (z : Z) : string :=
  if z <? 0 then
    let ds := fmt_lu (- z) in
    String "-"%char (zeros (width - 1 - String.length ds) ++ ds)
  else
    let ds := fmt_lu z in
    zeros (width - String.length ds) ++ ds.

(** [%d] *)
Definition fmt_d (z : Z) : string := fmt_0d 0 z.

(** A format with a single [%s] conversion. *)
Record fmt1 : Type := Fmt1 { fmt_pre : string; fmt_post : string }.

Definition sprintf1 (f : fmt1) (arg : string) : string :=
  fmt_pre f ++ arg ++ fmt_post f.

Definition dquote : string := String (ascii_of_nat 34) EmptyString.

Definition newline : string := String (ascii_of_nat 10) EmptyString.

Fixpoint join (sep : string) (l : list string) : string :=
  match l with
  | [] => EmptyString
  | [x] => x
  | x :: r => x ++ sep ++ join sep r
  end.

End CStr.

(** ** Configuration and libraries *)

(** The macros [main.cpp] takes from [defs.h].  [NTP_OFFSET] and the two
    periods have defaults in [main.cpp] itself (0, 300 and 30). *)
Record Defs : Type := {
  NTP_OFFSET : Z;
  UPDATE_PERIOD_PVOUTPUT : Z;
  UPDATE_PERIOD_STATS : Z;
  MQTT_TOPIC : string
}.

(** The defaults of [main.cpp], with a topic name to evaluate examples. *)
Definition default_defs : Defs := {|
  NTP_OFFSET := 0;
  UPDATE_PERIOD_PVOUTPUT := 300;
  UPDATE_PERIOD_STATS := 30;
  MQTT_TOPIC := "inverter"
|}.

(** The library functions whose results end up in published text: the
    calendar functions of [TimeLib.h], the C library's [%.2f] conversion and
    the HTTP client's [errorToString]. *)
Record Libs : Type := {
  year : Z -> Z;
  month : Z -> Z;
  day : Z -> Z;
  hour : Z -> Z;
  minute : Z -> Z;
  printf_f2 : Float32.float -> string;
  errorToString : Z -> string
}.

(** *** Reference instances of the libraries

    Used to evaluate the firmware on concrete inputs.  The calendar follows
    the algorithm of the Arduino Time library ([breakTime]): seconds, minutes
    and hours by division, the year by adding year lengths from 1970, the
    month by subtracting month lengths.  The [%.2f] conversion prints the
    exact binary value rounded to two decimals, ties to even. *)

Module RefLibs.

Definition LEAP_YEAR (y : Z) : bool :=
  ((1970 + y) mod 4 =? 0) &&
  (negb ((1970 + y) mod 100 =? 0) || ((1970 + y) mod 400 =? 0)).

Definition year_days (y : Z) : Z := if LEAP_YEAR y then 366 else 365.

(** [while ((days += year_days(year)) <= time) year++;] returning the year
    and the days counted up to the end of that year. *)
Fixpoint year_loop (fuel : nat) (y days time : Z) : Z * Z :=
  let days' := days + year_days y in
  match fuel with
  | O => (y, days')
  | S f => if days' <=? time then year_loop f (y + 1) days' time else (y, days')
  end.

Definition monthDays : list Z := [31; 28; 31; 30; 31; 30; 31; 31; 30; 31; 30; 31].

Fixpoint month_loop (months : list Z) (m y time : Z) : Z * Z :=
  match months with
  | [] => (m, time)
  | len :: rest =>
      let monthLength := if m =? 1 then (if LEAP_YEAR y then 29 else 28) else len in
      if monthLength <=? time then month_loop rest (m + 1) y (time - monthLength)
      else (m, time)
  end.

Record tmElements : Type := {
  tm_Minute : Z; tm_Hour : Z; tm_Day : Z; tm_Month : Z; tm_Year : Z
}.

Definition breakTime (timeInput : Z) : tmElements :=
  let t := ULong.wrap timeInput in
  let minutes := t / 60 in
  let hours := minutes / 60 in
  let days := hours / 24 in
  let '(y, counted) := year_loop 255 0 0 days in
  let in_year := days - (counted - year_days y) in
  let '(m, d) := month_loop monthDays 0 y in_year in
  {| tm_Minute := minutes mod 60; tm_Hour := hours mod 24;
     tm_Day := d + 1; tm_Month := m + 1; tm_Year := y |}.

(** Rounds [num / den] to the nearest integer, ties to even ([den > 0]). *)
Definition div_nearest_even (num den : Z) : Z :=
  let q := num / den in
  let r := num mod den in
  match 2 * r ?= den with
  | Lt => q
  | Gt => q + 1
  | Eq => if Z.even q then q else q + 1
  end.

(** The decimal digits of a natural number of up to fifty digits (the
    largest binary32 value has 39). *)
Definition dec_wide (n : Z) : string := CStr.dec_digits 50 n EmptyString.

Definition fixed2 (neg : bool) (hundredths : Z) : string :=
  ((if neg then "-" else "") ++ dec_wide (hundredths / 100) ++ "."
   ++ CStr.fmt_0d 2 (hundredths mod 100))%string.

Definition format_f2 (x : Float32.float) : string :=
  match x with
  | S754_nan => "nan"
  | S754_infinity s => if s then "-inf" else "inf"
  | S754_zero s => fixed2 s 0
  | S754_finite s m e =>
      if 0 <=? e then fixed2 s (Z.pos m * 2 ^ e * 100)
      else fixed2 s (div_nearest_even (Z.pos m * 100) (2 ^ (- e)))
  end.

Definition http_error_text (code : Z) : string :=
  if code =? -1 then "connection failed"
  else if code =? -11 then "read Timeout"
  else "".

Definition libs : Libs := {|
  year := fun t => tm_Year (breakTime t) + 1970;
  month := fun t => tm_Month (breakTime t);
  day := fun t => tm_Day (breakTime t);
  hour := fun t => tm_Hour (breakTime t);
  minute := fun t => tm_Minute (breakTime t);
  printf_f2 := format_f2;
  errorToString := http_error_text
|}.

End RefLibs.

(** ** Collaborator answers and outward actions *)

(** What the Aurora library hands back for each kind of transaction; the
    success flag is [state.readState] in the source. *)
Record DataState : Type := { state_readState : bool }.
Record DataDSP : Type := { dsp_readState : bool; dsp_value : Float32.float }.
Record DataCumulatedEnergy : Type := { ce_readState : bool; ce_energy : Z }.
Record DataTimeDate : Type := { td_readState : bool; td_epochTime : Z }.

(** What the firmware does to the outside, one event per call: a call of
    [pubSubClient.connect] or [pubSubClient.publish] (the source ignores the
    result of [publish]), [http.begin] and [http.POST], the clock write to
    the inverter, [runLoopHandlers], [runLoopDelay] (which keeps running the
    handlers while it waits) and [led.flashFast].  Text printed on the serial
    log is not recorded. *)
Inductive Event : Type :=
| MqttConnect (clientId willTopic willMessage : string)
| MqttPublish (topic payload : string) (retained : bool)
| HttpBegin (url : string)
| HttpPost (body : string)
| InverterWriteTimeDate (epochLocal : Z)
| LoopHandlers
| LoopDelay (ms : Z)
| LedFlashFast (count : Z).

(** One evaluation of the condition of the [while] in [mqttConnectCheck]:
    the broker link is up, or it is down and [connect] then answers. *)
Inductive LinkObs : Type :=
| LinkUp
| LinkDown (connectOk : bool).

(** ** Program state *)

(** The two [static] locals of [loop]. *)
Record LoopStatics : Type := {
  nextUpdateTime : Z;
  nextStatsTime : Z
}.

Record Globals : Type := {
  wifiMac : string;
  energyToday : Z;
  energyTodayLastUpdate : Z;
  energyTodayLastPublished : Z;
  inverterStatus : string;
  loopStatics : option LoopStatics   (* [None] until [loop] is first entered *)
}.

Definition initial_globals (mac : string) : Globals := {|
  wifiMac := mac;
  energyToday := 0;
  energyTodayLastUpdate := 0;
  energyTodayLastPublished := 0;
  inverterStatus := "{}";
  loopStatics := None
|}.

Definition set_energyToday (g : Globals) (energy lastUpdate : Z) : Globals := {|
  wifiMac := wifiMac g;
  energyToday := energy;
  energyTodayLastUpdate := lastUpdate;
  energyTodayLastPublished := energyTodayLastPublished g;
  inverterStatus := inverterStatus g;
  loopStatics := loopStatics g
|}.

Definition set_energyTodayLastPublished (g : Globals) (t : Z) : Globals := {|
  wifiMac := wifiMac g;
  energyToday := energyToday g;
  energyTodayLastUpdate := energyTodayLastUpdate g;
  energyTodayLastPublished := t;
  inverterStatus := inverterStatus g;
  loopStatics := loopStatics g
|}.

Definition set_inverterStatus (g : Globals) (s : string) : Globals := {|
  wifiMac := wifiMac g;
  energyToday := energyToday g;
  energyTodayLastUpdate := energyTodayLastUpdate g;
  energyTodayLastPublished := energyTodayLastPublished g;
  inverterStatus := s;
  loopStatics := loopStatics g
|}.

Definition set_loopStatics (g : Globals) (w : LoopStatics) : Globals := {|
  wifiMac := wifiMac g;
  energyToday := energyToday g;
  energyTodayLastUpdate := energyTodayLastUpdate g;
  energyTodayLastPublished := energyTodayLastPublished g;
  inverterStatus := inverterStatus g;
  loopStatics := Some w
|}.

(** ** Inputs of one call: the collaborators' answers, in call order *)

Record ReadTodayIn : Type := {
  rt_clock : Z;                        (* timeClient.getEpochTime() *)
  rt_energy : DataCumulatedEnergy;     (* CUMULATED_DAILY_ENERGY *)
  rt_mqttUp : bool                     (* mqttConnected() in mqttLog *)
}.

Record SetTimeIn : Type := {
  st_timeDate : DataTimeDate;
  st_clock : Z;
  st_writeOk : bool
}.

Record StatusIn : Type := {
  su_clock : Z;
  su_state : DataState;
  su_energyDaily : DataCumulatedEnergy;
  su_energyLifetime : DataCumulatedEnergy;
  su_pin1 : DataDSP;
  su_pin2 : DataDSP;
  su_gridVoltage : DataDSP;
  su_frequency : DataDSP;
  su_tempInverter : DataDSP;
  su_tempBooster : DataDSP;
  su_mqttUp : bool                     (* mqttConnected() before publishing *)
}.

Record SendIn : Type := {
  ps_beginOk : bool;                   (* http.begin *)
  ps_httpCode : Z;                     (* http.POST *)
  ps_mqttUp : bool;                    (* mqttConnected() in mqttLog *)
  ps_clock : Z                         (* clock after the exchange *)
}.

Record LoopIn : Type := {
  lp_clockInitUpdate : Z;              (* read when the statics are initialised *)
  lp_clockInitStats : Z;
  lp_clockUpdate : Z;                  (* read by the first window test *)
  lp_setTime : SetTimeIn;
  lp_readToday : ReadTodayIn;
  lp_clockStats : Z;                   (* read by the second window test *)
  lp_status : StatusIn;
  lp_wifiUp : bool;                    (* WiFi.status() == WL_CONNECTED *)
  lp_send : SendIn
}.

(** The local variables of [inverterUpdateStatus] once the reads are done. *)
Record Readings : Type := {
  rd_energyToday : Z;
  rd_energyLifetime : Z;
  rd_pIn1 : Float32.float;
  rd_pIn2 : Float32.float;
  rd_pIn : Float32.float;
  rd_vGrid : Float32.float;
  rd_fGrid : Float32.float;
  rd_tempInverter : Float32.float;
  rd_tempBooster : Float32.float
}.

Record LoopOut : Type := {
  lo_globals : Globals;
  lo_trace : list Event;
  lo_pending : bool                    (* pvOutputUpdatePending when loop returns *)
}.

(** ** The firmware *)

Section Firmware.

Variable cfg : Defs.
Variable lib : Libs.

(** *** Time *)

Definition toLocalTime (t : Z) : Z := ULong.add t (NTP_OFFSET cfg).

Definition fromLocalTime (t : Z) : Z := ULong.sub t (NTP_OFFSET cfg).

(** [ntp] is what [timeClient.getEpochTime()] answers. *)
Definition getEpochTime (ntp : Z) : Z := fromLocalTime ntp.

(** [bufLen] is 20 at every call of the source; the C code is undefined for
    a buffer of length 0. *)
Definition _formatFloat (bufLen : nat) (val : Float32.float) : string :=
  if Float32.isnan val then CStr.strncpy "NaN" (bufLen - 1)
  else CStr.snprintf (bufLen - 1) (printf_f2 lib val).

(** *** MQTT *)

Definition MQTT_CLIENT_ID_MAX_LEN : nat := 64.

Definition mqttTopicLwt : CStr.fmt1 := CStr.Fmt1 "tele/" "/LWT".
Definition mqttTopicStat : CStr.fmt1 := CStr.Fmt1 "tele/" "/STAT".
Definition mqttTopicPower : CStr.fmt1 := CStr.Fmt1 "tele/" "/POWER".
Definition mqttTopicLog : CStr.fmt1 := CStr.Fmt1 "tele/" "/LOG".
Definition mqttMessageOnline : string := "Online".
Definition mqttMessageOffline : string := "Offline".

(** The buffer [_mqttTopic] has 64 bytes and [snprintf] is given one less. *)
Definition mqttTopic (topicFmt : CStr.fmt1) : string :=
  CStr.snprintf 63 (CStr.sprintf1 topicFmt (MQTT_TOPIC cfg)).

(** The [while (!mqttConnected())] loop, run against the successive
    observations of the link.  [None]: the observations ran out while the
    loop was still waiting. *)
Fixpoint mqttConnectCheck (mac : string) (script : list LinkObs)
  : option (list Event * list LinkObs) :=
  match script with
  | [] => None
  | LinkUp :: rest => Some ([], rest)
  | LinkDown ok :: rest =>
      let clientId :=
        CStr.snprintf (MQTT_CLIENT_ID_MAX_LEN - 1)
          (MQTT_TOPIC cfg ++ "-" ++ mac) in
      let willTopic := mqttTopic mqttTopicLwt in
      let attempt := MqttConnect clientId willTopic mqttMessageOffline in
      let after :=
        if ok then [MqttPublish willTopic mqttMessageOnline true]
        else [LoopDelay (60 * 1000)] in
      match mqttConnectCheck mac rest with
      | None => None
      | Some (tr, rest') => Some (attempt :: (after ++ tr)%list, rest')
      end
  end.

Definition mqttSend (mac : string) (topic_fmt : CStr.fmt1) (msg : string)
    (waitForConnection : bool) (script : list LinkObs)
  : option (list Event * list LinkObs) :=
  let publish := MqttPublish (mqttTopic topic_fmt) msg false in
  if waitForConnection then
    match mqttConnectCheck mac script with
    | None => None
    | Some (tr, rest) => Some ((tr ++ [publish])%list, rest)
    end
  else Some ([publish], script).

(** A call of [mqttSend] with the default [waitForConnection = false]: it
    takes no observation of the link and always returns. *)
Definition mqttSend_default (mac : string) (topic_fmt : CStr.fmt1) (msg : string)
  : list Event :=
  match mqttSend mac topic_fmt msg false [] with
  | Some (tr, _) => tr
  | None => []
  end.

(** [text] is the expansion of the format; the buffer holds 1024 bytes and
    [vsnprintf] is given one less. *)
Definition mqttLog (connected : bool) (text : string) : list Event :=
  if connected then
    [MqttPublish (mqttTopic mqttTopicLog) (CStr.snprintf 1023 text) false]
  else [].

(** *** Inverter *)

Definition inverterOnline (s : DataState) : bool := state_readState s.

Definition inverterReadDSP (d : DataDSP) : Float32.float :=
  if negb (dsp_readState d) then Float32.NAN else dsp_value d.

Definition inverterReadTodayEnergy (i : ReadTodayIn) (g : Globals)
  : bool * Globals * list Event :=
  let now := getEpochTime (rt_clock i) in
  if negb (ce_readState (rt_energy i)) then (false, g, [])
  else
    let g' := set_energyToday g (ce_energy (rt_energy i)) now in
    let text :=
      "updated Today's energy: " ++ CStr.fmt_lu (energyTodayLastUpdate g')
      ++ " (" ++ CStr.fmt_lu (toLocalTime now) ++ ") = "
      ++ CStr.fmt_lu (energyToday g') in
    (true, g', mqttLog (rt_mqttUp i) text).

Definition inverterSetTime (i : SetTimeIn) : bool * list Event :=
  let newEpochLocalTime := toLocalTime (getEpochTime (st_clock i)) in
  (st_writeOk i, [InverterWriteTimeDate newEpochLocalTime]).

Definition read_energy (e : DataCumulatedEnergy) : Z :=
  if negb (ce_readState e) then 0 else ce_energy e.

(** Lines 427-447: the two energy reads, the six DSP reads and the sum. *)
Definition cycle_readings (i : StatusIn) : Readings :=
  let pIn1 := inverterReadDSP (su_pin1 i) in
  let pIn2 := inverterReadDSP (su_pin2 i) in
  {| rd_energyToday := read_energy (su_energyDaily i);
     rd_energyLifetime := read_energy (su_energyLifetime i);
     rd_pIn1 := pIn1;
     rd_pIn2 := pIn2;
     rd_pIn :=
       if negb (Float32.isnan pIn1) && negb (Float32.isnan pIn2)
       then Float32.add pIn1 pIn2 else Float32.NAN;
     rd_vGrid := inverterReadDSP (su_gridVoltage i);
     rd_fGrid := inverterReadDSP (su_frequency i);
     rd_tempInverter := inverterReadDSP (su_tempInverter i);
     rd_tempBooster := inverterReadDSP (su_tempBooster i) |}.

(** The conversions of the status format, in order: key and printed value. *)
Definition status_fields (now : Z) (r : Readings) (g : Globals)
  : list (string * string) :=
  [ ("last_update", CStr.fmt_lu now);
    ("energy_today", CStr.fmt_lu (rd_energyToday r));
    ("energy_total", CStr.fmt_lu (rd_energyLifetime r));
    ("last_pvoutput_read", CStr.fmt_lu (energyTodayLastUpdate g));
    ("last_pvoutput_sent", CStr.fmt_lu (energyTodayLastPublished g));
    ("p_in", _formatFloat 20 (rd_pIn r));
    ("p_in_1", _formatFloat 20 (rd_pIn1 r));
    ("p_in_2", _formatFloat 20 (rd_pIn2 r));
    ("grid_voltage", _formatFloat 20 (rd_vGrid r));
    ("grid_frequency", _formatFloat 20 (rd_fGrid r));
    ("temp_inverter", _formatFloat 20 (rd_tempInverter r));
    ("temp_booster", _formatFloat 20 (rd_tempBooster r)) ].

Definition format_field (kv : string * string) : string :=
  CStr.dquote ++ fst kv ++ CStr.dquote ++ ": " ++ snd kv.

Definition format_status (fields : list (string * string)) : string :=
  CStr.snprintf 2048 ("{" ++ CStr.join ", " (map format_field fields) ++ "}").

Definition inverterUpdateStatus (i : StatusIn) (g : Globals)
  : Globals * list Event :=
  let now := getEpochTime (su_clock i) in
  if negb (inverterOnline (su_state i)) then (g, [])
  else
    let r := cycle_readings i in
    let pIn_s := _formatFloat 20 (rd_pIn r) in
    let status := format_status (status_fields now r g) in
    let g' := set_inverterStatus g status in
    let published :=
      if su_mqttUp i then
        ((if negb (Float32.isnan (rd_pIn r))
          then mqttSend_default (wifiMac g) mqttTopicPower pIn_s else [])
         ++ mqttSend_default (wifiMac g) mqttTopicStat (inverterStatus g'))%list
      else [] in
    (g', published).

(** *** PVOutput *)

Definition pvoutputAddStatsUrl : string :=
  "https://pvoutput.org/service/r2/addstatus.jsp".

(** The expansion of the format of [post_data], before it is stored. *)
Definition post_data_text (timeLocal energy : Z) : string :=
  "d=" ++ CStr.fmt_0d 4 (year lib timeLocal)
       ++ CStr.fmt_0d 2 (month lib timeLocal)
       ++ CStr.fmt_0d 2 (day lib timeLocal)
  ++ "&t=" ++ CStr.fmt_0d 2 (hour lib timeLocal)
       ++ ":" ++ CStr.fmt_0d 2 (minute lib timeLocal)
  ++ "&v1=" ++ CStr.fmt_lu energy ++ "&c1=0".

Definition post_data (g : Globals) : string :=
  let timeLocal := toLocalTime (energyTodayLastUpdate g) in
  CStr.snprintf 512 (post_data_text timeLocal (energyToday g)).

Definition pvOutputSend (i : SendIn) (g : Globals)
  : bool * Globals * list Event :=
  let body := post_data g in
  if negb (ps_beginOk i) then (false, g, [HttpBegin pvoutputAddStatsUrl])
  else
    let httpCode := ps_httpCode i in
    let logged :=
      if 0 <? httpCode then
        mqttLog (ps_mqttUp i)
          ("PV Output update (" ++ body ++ ") returned "
           ++ CStr.fmt_d httpCode ++ CStr.newline)
      else
        mqttLog (ps_mqttUp i)
          ("PV Output update (" ++ body ++ ") error "
           ++ errorToString lib httpCode ++ CStr.newline) in
    let tr := (HttpBegin pvoutputAddStatsUrl :: HttpPost body :: logged)%list in
    if httpCode =? 200 then
      (true, set_energyTodayLastPublished g (getEpochTime (ps_clock i)), tr)
    else (false, g, tr).

(** *** The scheduler *)

(** The macro periods take part in [unsigned long] arithmetic. *)
Definition period_pvoutput : Z := ULong.wrap (UPDATE_PERIOD_PVOUTPUT cfg).
Definition period_stats : Z := ULong.wrap (UPDATE_PERIOD_STATS cfg).

(** The initialiser of each static: [(now / period) * period + period]. *)
Definition window_init (now period : Z) : Z :=
  ULong.add (ULong.mul (ULong.div now period) period) period.

(** [getEpochTime() >= next] *)
Definition window_due (now next : Z) : bool := ULong.geb now next.

(** [next += period] *)
Definition window_advance (next period : Z) : Z := ULong.add next period.

(** The statics as the body of [loop] sees them: initialised on the first
    entry, kept afterwards. *)
Definition loop_statics (i : LoopIn) (g : Globals) : LoopStatics :=
  match loopStatics g with
  | Some w => w
  | None =>
      {| nextUpdateTime :=
           window_init (getEpochTime (lp_clockInitUpdate i)) period_pvoutput;
         nextStatsTime :=
           window_init (getEpochTime (lp_clockInitStats i)) period_stats |}
  end.

(** Lines 294-306: the energy window.  Gives the new deadline, the pending
    flag, the globals and the trace. *)
Definition loop_energy_window (i : LoopIn) (next : Z) (pending : bool)
    (g : Globals) : Z * bool * Globals * list Event :=
  if window_due (getEpochTime (lp_clockUpdate i)) next then
    let '(_, trSet) := inverterSetTime (lp_setTime i) in
    let '(ok, g', trRead) := inverterReadTodayEnergy (lp_readToday i) g in
    let pending' := if ok then true else pending in
    let led := LedFlashFast (if ok then 1 else 4) in
    (window_advance next period_pvoutput, pending', g',
     (trSet ++ trRead ++ [led])%list)
  else (next, pending, g, []).

(** Lines 307-311: the stats window. *)
Definition loop_stats_window (i : LoopIn) (next : Z) (g : Globals)
  : Z * Globals * list Event :=
  if window_due (getEpochTime (lp_clockStats i)) next then
    let '(g', tr) := inverterUpdateStatus (lp_status i) g in
    (window_advance next period_stats, g', (tr ++ [LedFlashFast 1])%list)
  else (next, g, []).

(** Lines 312-323: the report, when one is pending. *)
Definition loop_report (i : LoopIn) (pending : bool) (g : Globals)
  : bool * Globals * list Event :=
  if pending then
    if lp_wifiUp i then
      let '(sent, g', tr) := pvOutputSend (lp_send i) g in
      if sent then (false, g', (tr ++ [LedFlashFast 2])%list)
      else (pending, g', (tr ++ [LedFlashFast 5; LoopDelay 1000])%list)
    else (pending, g, [])
  else (pending, g, []).

Definition loop (i : LoopIn) (g : Globals) : LoopOut :=
  let w := loop_statics i g in
  let pvOutputUpdatePending := false in
  let '(nextUpdate, pending1, g1, tr1) :=
    loop_energy_window i (nextUpdateTime w) pvOutputUpdatePending g in
  let '(nextStats, g2, tr2) := loop_stats_window i (nextStatsTime w) g1 in
  let '(pending3, g3, tr3) := loop_report i pending1 g2 in
  {| lo_globals :=
       set_loopStatics g3
         {| nextUpdateTime := nextUpdate; nextStatsTime := nextStats |};
     lo_trace := (LoopHandlers :: tr1 ++ tr2 ++ tr3)%list;
     lo_pending := pending3 |}.

(** Successive calls of [loop], one per element of [inputs]. *)
Fixpoint run_loop (inputs : list LoopIn) (g : Globals) : Globals :=
  match inputs with
  | [] => g
  | i :: rest => run_loop rest (lo_globals (loop i g))
  end.

(** Whether a trace holds an attempt to reach PVOutput. *)
Definition is_http (e : Event) : bool :=
  match e with
  | HttpBegin _ | HttpPost _ => true
  | _ => false
  end.

Definition is_mqtt_connect (e : Event) : bool :=
  match e with
  | MqttConnect _ _ _ => true
  | _ => false
  end.

Definition is_mqtt_publish (e : Event) : bool :=
  match e with
  | MqttPublish _ _ _ => true
  | _ => false
  end.

(** The printed value of a key of the status. *)
Fixpoint field_value (key : string) (fields : list (string * string))
  : option string :=
  match fields with
  | [] => None
  | (k, v) :: rest => if String.eqb k key then Some v else field_value key rest
  end.

End Firmware.

(** ** The rest of the firmware: bootstrap, waits and the web handler *)

(** [%x] conversions. *)
Module CHex.

Definition hex_digit (d : Z) : ascii :=
  if d <? 10 then ascii_of_nat (48 + Z.to_nat d)
  else ascii_of_nat (87 + Z.to_nat d).

Fixpoint hex_digits (fuel : nat) (n : Z) (acc : string) : string :=
  match fuel with
  | O => acc
  | S f =>
      let acc' := String (hex_digit (n mod 16)) acc in
      if n / 16 =? 0 then acc' else hex_digits f (n / 16) acc'
  end.

(** [%0<width>x] of a 32-bit unsigned value: at most eight digits. *)
Definition fmt_0x (width : nat) (n : Z) : string :=
  let ds := hex_digits 8 n EmptyString in
  (CStr.zeros (width - String.length ds) ++ ds)%string.

End CHex.

(** The methods of the web server library. *)
Inductive HTTPMethod : Type :=
| HTTP_ANY | HTTP_GET | HTTP_HEAD | HTTP_POST | HTTP_PUT | HTTP_PATCH
| HTTP_DELETE | HTTP_OPTIONS.

Definition is_get (m : HTTPMethod) : bool :=
  match m with
  | HTTP_GET => true
  | _ => false
  end.

(** The arguments of [webServer.send]. *)
Record WebResponse : Type := {
  resp_code : Z;
  resp_content_type : string;
  resp_body : string
}.

(** What [setup] does besides the actions that also occur in [loop]. *)
Inductive BootEvent : Type :=
| Steady (e : Event)
| BootDelay (ms : Z)
| LedOn
| LedOff
| SetInsecure
| SerialBegin (baud : Z)
| InverterBegin
| WifiBegin
| NtpBegin
| NtpSetUpdateInterval (ms : Z)
| NtpForceUpdate
| WebServerOn (uri : string)
| WebServerBegin
| MqttSetServer
| MqttSetCallback.

Definition set_wifiMac (g : Globals) (mac : string) : Globals := {|
  wifiMac := mac;
  energyToday := energyToday g;
  energyTodayLastUpdate := energyTodayLastUpdate g;
  energyTodayLastPublished := energyTodayLastPublished g;
  inverterStatus := inverterStatus g;
  loopStatics := loopStatics g
|}.

(** The six bytes [WiFi.macAddress] fills in. *)
Record MacBytes : Type := {
  mac0 : Z; mac1 : Z; mac2 : Z; mac3 : Z; mac4 : Z; mac5 : Z
}.

(** [wifiMac] has 13 bytes and [snprintf] is given all of them. *)
Definition readWifiMac (m : MacBytes) (g : Globals) : Globals :=
  set_wifiMac g
    (CStr.snprintf 13
       (CHex.fmt_0x 2 (mac0 m) ++ CHex.fmt_0x 2 (mac1 m) ++ CHex.fmt_0x 2 (mac2 m)
        ++ CHex.fmt_0x 2 (mac3 m) ++ CHex.fmt_0x 2 (mac4 m)
        ++ CHex.fmt_0x 2 (mac5 m))%string).

(** The body of the [while] of [runLoopDelay], against the successive
    answers of [millis()]: the handlers run once per turn ([delay] itself
    does nothing that is recorded).  [None]: the answers ran out. *)
Fixpoint runLoopDelay_wait (tStart delayTime : Z) (millis : list Z)
  : option (list Event * list Z) :=
  match millis with
  | [] => None
  | now :: rest =>
      if ULong.sub now tStart <? delayTime then
        match runLoopDelay_wait tStart delayTime rest with
        | None => None
        | Some (tr, rest') => Some (LoopHandlers :: tr, rest')
        end
      else Some ([], rest)
  end.

(** The first answer of [millis()] is [tStart]. *)
Definition runLoopDelay (delayTime : Z) (millis : list Z)
  : option (list Event * list Z) :=
  match millis with
  | [] => None
  | tStart :: rest => runLoopDelay_wait tStart delayTime rest
  end.

(** [status] holds the successive values of [WiFi.status() == WL_CONNECTED]. *)
Fixpoint waitForWifi (status : list bool) : option (list Event * list bool) :=
  match status with
  | [] => None
  | true :: rest => Some ([], rest)
  | false :: rest =>
      match waitForWifi rest with
      | None => None
      | Some (tr, rest') => Some (LoopDelay 500 :: tr, rest')
      end
  end.

Definition isWifiConnected (status : bool) : bool := status.

(** [while (!timeClient.forceUpdate()) delay(500);] against the successive
    answers of [forceUpdate]. *)
Fixpoint ntp_wait (answers : list bool) : option (list BootEvent * list bool) :=
  match answers with
  | [] => None
  | true :: rest => Some ([NtpForceUpdate], rest)
  | false :: rest =>
      match ntp_wait rest with
      | None => None
      | Some (tr, rest') => Some (NtpForceUpdate :: BootDelay 500 :: tr, rest')
      end
  end.

Definition crlf : string :=
  String (ascii_of_nat 13) (String (ascii_of_nat 10) EmptyString).

Definition webHandle404 : WebResponse :=
  {| resp_code := 404; resp_content_type := "text/html";
     resp_body := ("Not Found" ++ crlf)%string |}.

Definition webHandleRoot (method : HTTPMethod) (g : Globals) : WebResponse :=
  if negb (is_get method) then webHandle404
  else {| resp_code := 200; resp_content_type := "application/json";
          resp_body := inverterStatus g |}.

(** [setup], against the bytes of the MAC address and the answers met by its
    three waits.  [None]: one of the waits never ends. *)
Definition setup (cfg : Defs) (m : MacBytes) (wifi ntp : list bool)
    (link : list LinkObs) (g : Globals) : option (Globals * list BootEvent) :=
  let g1 := readWifiMac m g in
  let start :=
    [BootDelay 1000; LedOn; SetInsecure; SerialBegin 115200; InverterBegin;
     BootDelay 1000; BootDelay 1000; BootDelay 1000;
     WifiBegin; Steady (LedFlashFast (-1))] in
  match waitForWifi wifi with
  | None => None
  | Some (trWifi, _) =>
      match ntp_wait ntp with
      | None => None
      | Some (trNtp, _) =>
          match mqttConnectCheck cfg (wifiMac g1) link with
          | None => None
          | Some (trMqtt, _) =>
              Some (g1,
                    (start ++ map Steady trWifi
                     ++ [LedOn; NtpBegin; NtpSetUpdateInterval (5 * 60 * 1000)]
                     ++ trNtp
                     ++ [WebServerOn "/"; WebServerBegin; MqttSetServer;
                         MqttSetCallback]
                     ++ map Steady trMqtt
                     ++ [LedOn; Steady (LoopDelay 2000); LedOff])%list)
          end
      end
  end.

(** ** Vocabulary of the properties *)

(** The [width] lowest decimal digits of [n], most significant first. *)
Fixpoint fixed_digits (width : nat) (n : Z) : string :=
  match width with
  | O => EmptyString
  | S k => (fixed_digits k (n / 10) ++ String (CStr.digit (n mod 10)) EmptyString)%string
  end.

(** The two schedule windows of [loop]. *)
Inductive Window : Type := EnergyWindow | StatsWindow.

Definition deadline (k : Window) (w : LoopStatics) : Z :=
  match k with
  | EnergyWindow => nextUpdateTime w
  | StatsWindow => nextStatsTime w
  end.

Definition period (cfg : Defs) (k : Window) : Z :=
  match k with
  | EnergyWindow => UPDATE_PERIOD_PVOUTPUT cfg
  | StatsWindow => UPDATE_PERIOD_STATS cfg
  end.

(** The epoch time a window test of one pass of [loop] compares with. *)
Definition window_clock (cfg : Defs) (k : Window) (i : LoopIn) : Z :=
  match k with
  | EnergyWindow => getEpochTime cfg (lp_clockUpdate i)
  | StatsWindow => getEpochTime cfg (lp_clockStats i)
  end.

(** The epoch time the initialiser of a window's static reads. *)
Definition init_clock (cfg : Defs) (k : Window) (i : LoopIn) : Z :=
  match k with
  | EnergyWindow => getEpochTime cfg (lp_clockInitUpdate i)
  | StatsWindow => getEpochTime cfg (lp_clockInitStats i)
  end.

(** The deadline of a window in the globals; 0 before [loop] has run. *)
Definition deadline_of (k : Window) (g : Globals) : Z :=
  match loopStatics g with
  | Some w => deadline k w
  | None => 0
  end.

(** ** Concrete inputs *)

Definition ex_globals : Globals := initial_globals "a0b1c2d3e4f5".

Definition energy_ok (e : Z) : DataCumulatedEnergy :=
  {| ce_readState := true; ce_energy := e |}.

Definition energy_failed : DataCumulatedEnergy :=
  {| ce_readState := false; ce_energy := 0 |}.

Definition dsp_ok (z : Z) : DataDSP :=
  {| dsp_readState := true; dsp_value := Float32.of_Z z |}.

Definition dsp_failed : DataDSP :=
  {| dsp_readState := false; dsp_value := Float32.of_Z 0 |}.

(** A stats cycle at epoch 1020 in which every read succeeds. *)
Definition ex_status_ok : StatusIn := {|
  su_clock := 1020;
  su_state := {| state_readState := true |};
  su_energyDaily := energy_ok 4200;
  su_energyLifetime := energy_ok 123456;
  su_pin1 := dsp_ok 1200;
  su_pin2 := dsp_ok 34;
  su_gridVoltage := dsp_ok 240;
  su_frequency := dsp_ok 50;
  su_tempInverter := dsp_ok 40;
  su_tempBooster := dsp_ok 39;
  su_mqttUp := true
|}.

(** The next cycle: the daily energy and the second string power fail. *)
Definition ex_status_partial : StatusIn := {|
  su_clock := 1050;
  su_state := {| state_readState := true |};
  su_energyDaily := energy_failed;
  su_energyLifetime := energy_ok 123456;
  su_pin1 := dsp_ok 1200;
  su_pin2 := dsp_failed;
  su_gridVoltage := dsp_ok 240;
  su_frequency := dsp_ok 50;
  su_tempInverter := dsp_ok 40;
  su_tempBooster := dsp_ok 39;
  su_mqttUp := true
|}.

(** A cycle in which the inverter does not answer the state request. *)
Definition ex_status_offline : StatusIn := {|
  su_clock := 1080;
  su_state := {| state_readState := false |};
  su_energyDaily := energy_ok 4300;
  su_energyLifetime := energy_ok 123556;
  su_pin1 := dsp_ok 1100;
  su_pin2 := dsp_ok 30;
  su_gridVoltage := dsp_ok 241;
  su_frequency := dsp_ok 50;
  su_tempInverter := dsp_ok 41;
  su_tempBooster := dsp_ok 40;
  su_mqttUp := true
|}.

Definition ex_setTime (clock : Z) : SetTimeIn := {|
  st_timeDate := {| td_readState := true; td_epochTime := clock |};
  st_clock := clock;
  st_writeOk := true
|}.

Definition ex_send (code clock : Z) : SendIn := {|
  ps_beginOk := true;
  ps_httpCode := code;
  ps_mqttUp := true;
  ps_clock := clock
|}.

(** One pass of [loop] in which every clock read gives [clock], the daily
    energy read gives 4200 and PVOutput answers [code]. *)
Definition ex_pass (clock code : Z) : LoopIn := {|
  lp_clockInitUpdate := clock;
  lp_clockInitStats := clock;
  lp_clockUpdate := clock;
  lp_setTime := ex_setTime clock;
  lp_readToday :=
    {| rt_clock := clock; rt_energy := energy_ok 4200; rt_mqttUp := true |};
  lp_clockStats := clock;
  lp_status := ex_status_ok;
  lp_wifiUp := true;
  lp_send := ex_send code clock
|}.

(** Globals whose statics hold the given deadlines. *)
Definition ex_scheduled (nextUpdate nextStats : Z) : Globals :=
  set_loopStatics ex_globals
    {| nextUpdateTime := nextUpdate; nextStatsTime := nextStats |}.

(** The globals after a daily-energy read of 4200 taken at epoch 50000. *)
Definition ex_reading : Globals := set_energyToday ex_globals 4200 50000.

(** PVOutput answers 500 while the broker link is down. *)
Definition ex_send_link_down : SendIn := {|
  ps_beginOk := true;
  ps_httpCode := 500;
  ps_mqttUp := false;
  ps_clock := 50300
|}.

(** The globals after a first stats cycle in which every read succeeded. *)
Definition ex_after_good_cycle : Globals :=
  fst (inverterUpdateStatus default_defs RefLibs.libs ex_status_ok ex_globals).

(** A pass at epoch 1200, the energy deadline: the read gives 4200 and
    PVOutput answers 500. *)
Definition ex_failed_report : LoopOut :=
  loop default_defs RefLibs.libs (ex_pass 1200 500) (ex_scheduled 1200 1230).

(** Three passes after the loop was held up until epoch 2000. *)
Definition ex_blocked_passes : list LoopIn :=
  [ex_pass 2000 200; ex_pass 2000 200; ex_pass 2001 200].

(** The status text of the cycle [ex_status_partial]. *)
Definition ex_partial_fields : list (string * string) :=
  [ ("last_update", "1050"); ("energy_today", "0"); ("energy_total", "123456");
    ("last_pvoutput_read", "0"); ("last_pvoutput_sent", "0");
    ("p_in", "NaN"); ("p_in_1", "1200.00"); ("p_in_2", "NaN");
    ("grid_voltage", "240.00"); ("grid_frequency", "50.00");
    ("temp_inverter", "40.00"); ("temp_booster", "39.00") ].

(** ** Vocabulary and inputs for the rest of the firmware *)

Definition is_link_up (o : LinkObs) : bool :=
  match o with
  | LinkUp => true
  | LinkDown _ => false
  end.





(** Whether a blocking call comes back. *)
Definition returns {A : Type} (o : option A) : bool :=
  match o with
  | Some _ => true
  | None => false
  end.

(** The value of a lower-case hexadecimal digit. *)
Definition hex_value (c : ascii) : Z :=
  let n := Z.of_nat (nat_of_ascii c) in
  if n <? 58 then n - 48 else n - 87.

(** The bytes written as successive pairs of hexadecimal digits. *)
Fixpoint decode_hex_pairs (s : string) : list Z :=
  match s with
  | String hi (String lo rest) =>
      (16 * hex_value hi + hex_value lo) :: decode_hex_pairs rest
  | _ => []
  end.

Definition byte_range (b : Z) : Prop := 0 <= b < 256.

(** A configuration ten hours east of UTC. *)
Definition ex_defs_offset : Defs := {|
  NTP_OFFSET := 36000;
  UPDATE_PERIOD_PVOUTPUT := 300;
  UPDATE_PERIOD_STATS := 30;
  MQTT_TOPIC := "inverter"
|}.

(** Passes at 1200 and 1500, then twenty further passes at 1500. *)
Definition ex_long_run : list LoopIn :=
  ([ex_pass 1200 200; ex_pass 1500 200] ++ repeat (ex_pass 1500 200) 20)%list.

(** The globals after a daily-energy read of 4200 taken at epoch 60000. *)
Definition ex_reading_late : Globals := set_energyToday ex_globals 4200 60000.

(** The integer a float stands for, when it stands for one. *)
Definition float_integer (x : Float32.float) : option Z :=
  match x with
  | S754_zero _ => Some 0
  | S754_finite s m e =>
      let sign := if s then -1 else 1 in
      if 0 <=? e then Some (sign * (Z.pos m * 2 ^ e))
      else if Z.pos m mod 2 ^ (- e) =? 0 then Some (sign * (Z.pos m / 2 ^ (- e)))
      else None
  | _ => None
  end.

(** A cycle in which the string powers read 16777216 W and 1 W. *)
Definition ex_status_large : StatusIn := {|
  su_clock := 1020;
  su_state := {| state_readState := true |};
  su_energyDaily := energy_ok 4200;
  su_energyLifetime := energy_ok 123456;
  su_pin1 := dsp_ok 16777216;
  su_pin2 := dsp_ok 1;
  su_gridVoltage := dsp_ok 240;
  su_frequency := dsp_ok 50;
  su_tempInverter := dsp_ok 40;
  su_tempBooster := dsp_ok 39;
  su_mqttUp := true
|}.

(** A configuration whose topic name has 57 characters. *)
Definition ex_defs_long_topic : Defs := {|
  NTP_OFFSET := 0;
  UPDATE_PERIOD_PVOUTPUT := 300;
  UPDATE_PERIOD_STATS := 30;
  MQTT_TOPIC := "solar-inverter-on-the-north-roof-of-the-garden-workshop-1"
|}.

Definition ex_mac : MacBytes :=
  {| mac0 := 160; mac1 := 177; mac2 := 194; mac3 := 211; mac4 := 228; mac5 := 245 |}.

(** The broker refuses once, accepts once, and the link is then up. *)
Definition ex_link_script : list LinkObs := [LinkDown false; LinkDown true].

(** A pass at epoch 1230 in which both windows are due. *)
Definition ex_both_due : Globals := ex_scheduled 1200 1230.

(** The cycle [ex_status_ok] with the broker found disconnected. *)
Definition ex_status_quiet : StatusIn := {|
  su_clock := 1230;
  su_state := {| state_readState := true |};
  su_energyDaily := energy_ok 4200;
  su_energyLifetime := energy_ok 123456;
  su_pin1 := dsp_ok 1200;
  su_pin2 := dsp_ok 34;
  su_gridVoltage := dsp_ok 240;
  su_frequency := dsp_ok 50;
  su_tempInverter := dsp_ok 40;
  su_tempBooster := dsp_ok 39;
  su_mqttUp := false
|}.

(** A pass at epoch [clock] during which the broker link is down. *)
Definition ex_pass_broker_down (clock : Z) : LoopIn := {|
  lp_clockInitUpdate := clock;
  lp_clockInitStats := clock;
  lp_clockUpdate := clock;
  lp_setTime := ex_setTime clock;
  lp_readToday :=
    {| rt_clock := clock; rt_energy := energy_ok 4200; rt_mqttUp := false |};
  lp_clockStats := clock;
  lp_status := ex_status_quiet;
  lp_wifiUp := true;
  lp_send :=
    {| ps_beginOk := true; ps_httpCode := 200; ps_mqttUp := false;
       ps_clock := clock + 2 |}
|}.

(** A pass at epoch [clock] in which the daily energy read fails. *)
Definition ex_pass_read_failed (clock : Z) : LoopIn := {|
  lp_clockInitUpdate := clock;
  lp_clockInitStats := clock;
  lp_clockUpdate := clock;
  lp_setTime := ex_setTime clock;
  lp_readToday :=
    {| rt_clock := clock; rt_energy := energy_failed; rt_mqttUp := true |};
  lp_clockStats := clock;
  lp_status := ex_status_ok;
  lp_wifiUp := true;
  lp_send := ex_send 200 clock
|}.

(** Globals holding an earlier reading and an earlier delivery. *)
Definition ex_reported : Globals :=
  set_loopStatics
    (set_energyTodayLastPublished (set_energyToday ex_globals 4100 900) 902)
    {| nextUpdateTime := 1200; nextStatsTime := 1230 |}.

(** * Properties *)

(** ** Arithmetic of [unsigned long] *)

Lemma wrap_small (x : Z) : 0 <= x < ULong.modulus -> ULong.wrap x = x.
Proof. intros H. unfold ULong.wrap. now apply Z.mod_small. Qed.

Lemma wrap_range (x : Z) : 0 <= ULong.wrap x < ULong.modulus.
Proof. unfold ULong.wrap. apply Z.mod_pos_bound. reflexivity. Qed.

Lemma getEpochTime_range (cfg : Defs) (ntp : Z) :
  0 <= getEpochTime cfg ntp < ULong.modulus.
Proof. unfold getEpochTime, fromLocalTime, ULong.sub. apply wrap_range. Qed.

Lemma window_init_exact (now p : Z) :
  0 <= now -> 0 < p -> now / p * p + p < ULong.modulus ->
  window_init now p = now / p * p + p.
Proof.
  intros Hnow Hp Hfit. unfold window_init, ULong.add, ULong.mul, ULong.div.
  assert (Hq : 0 <= now / p) by (apply Z.div_pos; lia).
  assert (Hm : 0 <= now / p * p) by nia.
  rewrite (wrap_small (now / p * p)) by lia.
  apply wrap_small. lia.
Qed.

Lemma window_advance_exact (next p : Z) :
  0 <= next -> 0 < p -> next + p < ULong.modulus ->
  window_advance next (ULong.wrap p) = next + p.
Proof.
  intros Hn Hp Hfit. unfold window_advance, ULong.add.
  rewrite (wrap_small p) by lia. apply wrap_small. lia.
Qed.

Example format_status_example :
  format_status [("last_update", "1020"); ("p_in", "NaN")] =
  ("{" ++ CStr.dquote ++ "last_update" ++ CStr.dquote ++ ": 1020, "
       ++ CStr.dquote ++ "p_in" ++ CStr.dquote ++ ": NaN}")%string.
Proof. reflexivity. Qed.

Example fmt_lu_examples :
  CStr.fmt_lu 0 = "0" /\ CStr.fmt_lu 4200 = "4200"
  /\ CStr.fmt_lu 4294967295 = "4294967295"
  /\ CStr.fmt_0d 4 1970 = "1970" /\ CStr.fmt_0d 2 7 = "07"
  /\ CStr.fmt_d (-11) = "-11".
Proof. repeat split. Qed.

(** ** The scheduler *)

Section Scheduler.

Variable cfg : Defs.
Variable lib : Libs.

Lemma loop_energy_window_next (i : LoopIn) (next : Z) (pending : bool) (g : Globals) :
  fst (fst (fst (loop_energy_window cfg i next pending g))) =
  if window_due (getEpochTime cfg (lp_clockUpdate i)) next
  then window_advance next (period_pvoutput cfg) else next.
Proof.
  unfold loop_energy_window.
  destruct (window_due _ next); [|reflexivity].
  destruct (inverterSetTime cfg (lp_setTime i)) as [b trSet].
  destruct (inverterReadTodayEnergy cfg (lp_readToday i) g) as [[ok g'] trRead].
  reflexivity.
Qed.

Lemma loop_stats_window_next (i : LoopIn) (next : Z) (g : Globals) :
  fst (fst (loop_stats_window cfg lib i next g)) =
  if window_due (getEpochTime cfg (lp_clockStats i)) next
  then window_advance next (period_stats cfg) else next.
Proof.
  unfold loop_stats_window.
  destruct (window_due _ next); [|reflexivity].
  destruct (inverterUpdateStatus cfg lib (lp_status i) g) as [g' tr].
  reflexivity.
Qed.

Lemma loop_statics_after (i : LoopIn) (g : Globals) :
  exists w', loopStatics (lo_globals (loop cfg lib i g)) = Some w'.
Proof.
  unfold loop.
  destruct (loop_energy_window _ _ _ _ _) as [[[n1 p1] g1] t1].
  destruct (loop_stats_window _ _ _ _ _) as [[n2 g2] t2].
  destruct (loop_report _ _ _ _ _) as [[p3 g3] t3].
  simpl. eauto.
Qed.

(** One pass of [loop] moves the deadline of a window only when the window
    is due, and then by one call of [window_advance]. *)
Lemma loop_deadline_step (k : Window) (i : LoopIn) (g : Globals) (w : LoopStatics) :
  loopStatics g = Some w ->
  deadline_of k (lo_globals (loop cfg lib i g)) =
  if window_due (window_clock cfg k i) (deadline k w)
  then window_advance (deadline k w) (ULong.wrap (period cfg k))
  else deadline k w.
Proof.
  intros Hw. unfold loop, loop_statics. rewrite Hw.
  pose proof (loop_energy_window_next i (nextUpdateTime w) false g) as He.
  destruct (loop_energy_window _ _ _ _ _) as [[[n1 p1] g1] t1].
  pose proof (loop_stats_window_next i (nextStatsTime w) g1) as Hs.
  destruct (loop_stats_window _ _ _ _ _) as [[n2 g2] t2].
  destruct (loop_report _ _ _ _ _) as [[p3 g3] t3].
  simpl in He, Hs. destruct k; unfold deadline_of; simpl; assumption.
Qed.

(** C4 (as amended): on the first entry of [loop], as long as the sum
    floor(now / period) * period + period still fits the 32-bit
    [unsigned long], the deadline of each window is exactly that sum, a
    multiple of the period and strictly after the epoch time read. *)
Theorem loop_first_deadline_aligned (k : Window) (i : LoopIn) (g : Globals) :
  loopStatics g = None ->
  0 < period cfg k ->
  init_clock cfg k i / period cfg k * period cfg k + period cfg k < ULong.modulus ->
  deadline k (loop_statics cfg i g) =
    init_clock cfg k i / period cfg k * period cfg k + period cfg k
  /\ deadline k (loop_statics cfg i g) mod period cfg k = 0
  /\ init_clock cfg k i < deadline k (loop_statics cfg i g).
Proof.
  intros Hnone Hp Hfit.
  assert (Hnow : 0 <= init_clock cfg k i < ULong.modulus)
    by (destruct k; apply getEpochTime_range).
  assert (Hq : 0 <= init_clock cfg k i / period cfg k)
    by (apply Z.div_pos; lia).
  assert (Hps : ULong.wrap (period cfg k) = period cfg k)
    by (apply wrap_small; nia).
  assert (Hd : deadline k (loop_statics cfg i g) =
               window_init (init_clock cfg k i) (ULong.wrap (period cfg k))).
  { unfold loop_statics. rewrite Hnone. destruct k; reflexivity. }
  rewrite Hd, Hps, window_init_exact by lia.
  split; [reflexivity|]. split.
  - replace (init_clock cfg k i / period cfg k * period cfg k + period cfg k)
      with ((init_clock cfg k i / period cfg k + 1) * period cfg k) by ring.
    apply Z.mod_mul. lia.
  - pose proof (Z.mod_pos_bound (init_clock cfg k i) (period cfg k) Hp) as Hm.
    pose proof (Z.div_mod (init_clock cfg k i) (period cfg k)) as Hdm.
    nia.
Qed.

(** C5 (as amended): over any run of passes of [loop] during which the
    deadline of a window stays below 2^32, the deadline moves by whole
    periods only, at most one per pass; it moves by exactly one period in
    every pass when the clock is already a full run ahead (catch-up after a
    blockage), and not at all while the clock is before the deadline. *)
Theorem loop_window_advances_by_period (k : Window) (inputs : list LoopIn)
    (g : Globals) (w : LoopStatics) :
  loopStatics g = Some w ->
  0 < period cfg k ->
  0 <= deadline k w ->
  deadline k w + Z.of_nat (List.length inputs) * period cfg k < ULong.modulus ->
  exists m : Z,
    0 <= m <= Z.of_nat (List.length inputs)
    /\ deadline_of k (run_loop cfg lib inputs g) = deadline k w + m * period cfg k
    /\ ((forall i, In i inputs ->
          deadline k w + (Z.of_nat (List.length inputs) - 1) * period cfg k
          <= window_clock cfg k i) ->
        m = Z.of_nat (List.length inputs))
    /\ ((forall i, In i inputs -> window_clock cfg k i < deadline k w) -> m = 0).
Proof.
  intros Hw Hp. revert g w Hw.
  induction inputs as [|i rest IH]; intros g w Hw Hd Hfit.
  - exists 0. simpl. unfold deadline_of. rewrite Hw.
    repeat split; try lia.
  - change (run_loop cfg lib (i :: rest) g)
      with (run_loop cfg lib rest (lo_globals (loop cfg lib i g))).
    destruct (loop_statics_after i g) as [w1 Hw1].
    pose proof (loop_deadline_step k i g w Hw) as Hstep.
    unfold deadline_of in Hstep. rewrite Hw1 in Hstep.
    cbn [List.length] in *. rewrite Nat2Z.inj_succ in *.
    set (n := Z.of_nat (List.length rest)) in *.
    assert (Hn : 0 <= n) by (subst n; lia).
    unfold window_due, ULong.geb in Hstep.
    destruct (Z.leb_spec (deadline k w) (window_clock cfg k i)) as [Hdue|Hnot].
    + rewrite window_advance_exact in Hstep by nia.
      destruct (IH _ _ Hw1) as (m & Hm & Heq & Hall & Hnone);
        [rewrite Hstep; lia | rewrite Hstep; nia |].
      exists (m + 1). rewrite Heq, Hstep.
      split; [lia|]. split; [ring|]. split.
      * intros Hc. rewrite Hall; [lia|].
        intros j Hj. specialize (Hc j (or_intror Hj)). rewrite Hstep. nia.
      * intros Hc. specialize (Hc i (or_introl eq_refl)). lia.
    + destruct (IH _ _ Hw1) as (m & Hm & Heq & Hall & Hnone);
        [rewrite Hstep; lia | rewrite Hstep; nia |].
      exists m. rewrite Heq, Hstep.
      split; [lia|]. split; [reflexivity|]. split.
      * intros Hc. specialize (Hc i (or_introl eq_refl)). nia.
      * intros Hc. apply Hnone.
        intros j Hj. rewrite Hstep. apply Hc. now right.
Qed.

End Scheduler.

(** ** The status snapshot *)

Section Status.

Variable cfg : Defs.
Variable lib : Libs.

Lemma formatFloat_NAN : _formatFloat lib 20 Float32.NAN = "NaN".
Proof. reflexivity. Qed.

Lemma inverterReadDSP_failed (d : DataDSP) :
  dsp_readState d = false -> inverterReadDSP d = Float32.NAN.
Proof. intros H. unfold inverterReadDSP. now rewrite H. Qed.

Lemma mqttSend_default_publishes (mac : string) (f : CStr.fmt1) (msg : string) :
  mqttSend_default cfg mac f msg = [MqttPublish (mqttTopic cfg f) msg false].
Proof. reflexivity. Qed.

(** What an online cycle stores and publishes. *)
Lemma inverterUpdateStatus_online (i : StatusIn) (g : Globals) :
  inverterOnline (su_state i) = true ->
  let status :=
    format_status
      (status_fields lib (getEpochTime cfg (su_clock i)) (cycle_readings i) g) in
  inverterUpdateStatus cfg lib i g =
  (set_inverterStatus g status,
   if su_mqttUp i then
     ((if negb (Float32.isnan (rd_pIn (cycle_readings i)))
       then [MqttPublish (mqttTopic cfg mqttTopicPower)
               (_formatFloat lib 20 (rd_pIn (cycle_readings i))) false]
       else [])
      ++ [MqttPublish (mqttTopic cfg mqttTopicStat) status false])%list
   else []).
Proof.
  intros Hon. unfold inverterUpdateStatus. rewrite Hon. reflexivity.
Qed.

(** C2 (as amended): an online stats cycle replaces the snapshot by the text
    formatted from this cycle's reads and the two report timestamps, whatever
    the snapshot held before.  Each float field whose read failed is printed
    as NaN, and so is the total input power when either string power failed.
    The two energy fields are unsigned integers with no missing marker: a
    failed energy read is printed as 0. *)
Theorem status_snapshot_from_this_cycle (i : StatusIn) (g : Globals) :
  inverterOnline (su_state i) = true ->
  let fields :=
    status_fields lib (getEpochTime cfg (su_clock i)) (cycle_readings i) g in
  inverterStatus (fst (inverterUpdateStatus cfg lib i g)) = format_status fields
  /\ (forall old : string,
        inverterStatus (fst (inverterUpdateStatus cfg lib i (set_inverterStatus g old)))
        = inverterStatus (fst (inverterUpdateStatus cfg lib i g)))
  /\ (dsp_readState (su_pin1 i) = false -> field_value "p_in_1" fields = Some "NaN")
  /\ (dsp_readState (su_pin2 i) = false -> field_value "p_in_2" fields = Some "NaN")
  /\ (dsp_readState (su_pin1 i) = false \/ dsp_readState (su_pin2 i) = false ->
      field_value "p_in" fields = Some "NaN")
  /\ (dsp_readState (su_gridVoltage i) = false ->
      field_value "grid_voltage" fields = Some "NaN")
  /\ (dsp_readState (su_frequency i) = false ->
      field_value "grid_frequency" fields = Some "NaN")
  /\ (dsp_readState (su_tempInverter i) = false ->
      field_value "temp_inverter" fields = Some "NaN")
  /\ (dsp_readState (su_tempBooster i) = false ->
      field_value "temp_booster" fields = Some "NaN")
  /\ (ce_readState (su_energyDaily i) = false ->
      field_value "energy_today" fields = Some "0")
  /\ (ce_readState (su_energyLifetime i) = false ->
      field_value "energy_total" fields = Some "0").
Proof.
  intros Hon fields.
  split. { rewrite inverterUpdateStatus_online by assumption. reflexivity. }
  split. { intros old. rewrite !inverterUpdateStatus_online by assumption. reflexivity. }
  assert (Hf : forall d, dsp_readState d = false ->
                 _formatFloat lib 20 (inverterReadDSP d) = "NaN").
  { intros d Hd. now rewrite inverterReadDSP_failed. }
  assert (He : forall e, ce_readState e = false -> CStr.fmt_lu (read_energy e) = "0").
  { intros e H. unfold read_energy. now rewrite H. }
  repeat split; intros H; subst fields; cbn [field_value status_fields String.eqb Ascii.eqb Bool.eqb];
    cbn [cycle_readings rd_pIn rd_pIn1 rd_pIn2 rd_vGrid rd_fGrid rd_tempInverter
         rd_tempBooster rd_energyToday rd_energyLifetime];
    f_equal; auto.
  destruct H as [H|H]; rewrite (inverterReadDSP_failed _ H); cbn;
    [|rewrite andb_false_r]; reflexivity.
Qed.

(** C6 (as amended): in an online stats cycle the total input power of the
    snapshot is the binary32 sum of the two string powers, rounded to the
    nearest float as the addition of the code is, when both are present
    (neither is NaN), and is missing (NaN) as soon as one of them is missing,
    in particular when one of the two reads failed. *)
Theorem total_input_power_sum_or_missing (i : StatusIn) (g : Globals) :
  inverterOnline (su_state i) = true ->
  let r := cycle_readings i in
  let fields := status_fields lib (getEpochTime cfg (su_clock i)) r g in
  inverterStatus (fst (inverterUpdateStatus cfg lib i g)) = format_status fields
  /\ field_value "p_in" fields = Some (_formatFloat lib 20 (rd_pIn r))
  /\ (Float32.isnan (rd_pIn1 r) = false -> Float32.isnan (rd_pIn2 r) = false ->
      rd_pIn r = Float32.add (rd_pIn1 r) (rd_pIn2 r))
  /\ (Float32.isnan (rd_pIn1 r) = true \/ Float32.isnan (rd_pIn2 r) = true ->
      rd_pIn r = Float32.NAN /\ field_value "p_in" fields = Some "NaN")
  /\ (dsp_readState (su_pin1 i) = false -> Float32.isnan (rd_pIn1 r) = true)
  /\ (dsp_readState (su_pin2 i) = false -> Float32.isnan (rd_pIn2 r) = true).
Proof.
  intros Hon r fields.
  split. { rewrite inverterUpdateStatus_online by assumption. reflexivity. }
  split. { reflexivity. }
  split. { intros H1 H2. subst r. cbn in *. now rewrite H1, H2. }
  split.
  { intros H.
    assert (Hn : rd_pIn r = Float32.NAN).
    { subst r. cbn in *. destruct H as [H|H]; rewrite H; cbn;
        [|rewrite andb_false_r]; reflexivity. }
    split; [assumption|].
    subst fields. cbn [field_value status_fields String.eqb Ascii.eqb Bool.eqb].
    now rewrite Hn. }
  split; intros H; subst r; cbn; now rewrite inverterReadDSP_failed.
Qed.

(** C7: a stats cycle in which the state request finds the inverter offline
    changes no global, so the snapshot text is the one held before, and it
    publishes nothing (its trace is empty). *)
Theorem offline_cycle_leaves_snapshot (i : StatusIn) (g : Globals) :
  inverterOnline (su_state i) = false ->
  inverterStatus (fst (inverterUpdateStatus cfg lib i g)) = inverterStatus g
  /\ fst (inverterUpdateStatus cfg lib i g) = g
  /\ snd (inverterUpdateStatus cfg lib i g) = [].
Proof.
  intros Hoff. unfold inverterUpdateStatus. rewrite Hoff. cbn. auto.
Qed.

(** C10: an online stats cycle that finds the broker connected always
    publishes the snapshot on the STAT topic, last; it publishes the
    formatted total input power on the POWER topic before it exactly when
    that power is not NaN.  When a string-power read failed the total is NaN
    and only STAT is sent. *)
Theorem stats_cycle_publishes (i : StatusIn) (g : Globals) :
  inverterOnline (su_state i) = true ->
  su_mqttUp i = true ->
  let pIn := rd_pIn (cycle_readings i) in
  let status := inverterStatus (fst (inverterUpdateStatus cfg lib i g)) in
  let stat := MqttPublish (mqttTopic cfg mqttTopicStat) status false in
  let power :=
    MqttPublish (mqttTopic cfg mqttTopicPower) (_formatFloat lib 20 pIn) false in
  snd (inverterUpdateStatus cfg lib i g) =
    (if Float32.isnan pIn then [stat] else [power; stat])
  /\ (dsp_readState (su_pin1 i) = false \/ dsp_readState (su_pin2 i) = false ->
      snd (inverterUpdateStatus cfg lib i g) = [stat]).
Proof.
  intros Hon Hup pIn status stat power.
  assert (Hsnd : snd (inverterUpdateStatus cfg lib i g) =
                 (if Float32.isnan pIn then [stat] else [power; stat])).
  { subst pIn status stat power.
    rewrite inverterUpdateStatus_online by assumption. rewrite Hup. cbn [fst snd].
    destruct (Float32.isnan (rd_pIn (cycle_readings i))); reflexivity. }
  split; [assumption|].
  intros H. rewrite Hsnd.
  assert (Hn : pIn = Float32.NAN).
  { subst pIn. cbn. destruct H as [H|H]; rewrite (inverterReadDSP_failed _ H); cbn;
      [|rewrite andb_false_r]; reflexivity. }
  now rewrite Hn.
Qed.

End Status.

(** ** Text in fixed-capacity buffers *)

Lemma string_length_app (a b : string) :
  String.length (a ++ b) = (String.length a + String.length b)%nat.
Proof. induction a as [|c a IH]; cbn; [reflexivity | now rewrite IH]. Qed.

Lemma take_all (n : nat) (s : string) :
  (String.length s <= n)%nat -> CStr.take n s = s.
Proof.
  revert n. induction s as [|c s IH]; intros [|n] H; cbn in *; try reflexivity.
  - lia.
  - rewrite IH by lia. reflexivity.
Qed.

Lemma fixed_digits_length (w : nat) (n : Z) : String.length (fixed_digits w n) = w.
Proof.
  revert n. induction w as [|w IH]; intros n; cbn; [reflexivity|].
  rewrite string_length_app, IH. cbn. lia.
Qed.

Lemma dec_digits_length (fuel : nat) (n : Z) (acc : string) :
  (String.length (CStr.dec_digits fuel n acc) <= fuel + String.length acc)%nat.
Proof.
  revert n acc. induction fuel as [|f IH]; intros n acc; cbn; [lia|].
  destruct (n / 10 =? 0); cbn; [lia|].
  specialize (IH (n / 10) (String (CStr.digit (n mod 10)) acc)). cbn in IH. lia.
Qed.

Lemma fmt_lu_length (n : Z) : (String.length (CStr.fmt_lu n) <= 10)%nat.
Proof. unfold CStr.fmt_lu. pose proof (dec_digits_length 10 n EmptyString). cbn in *. lia. Qed.

(** A check on every value below a bound, by evaluation. *)
Lemma forall_below (P : Z -> bool) (bound : Z) :
  forallb P (map Z.of_nat (seq 0 (Z.to_nat bound))) = true ->
  forall n, 0 <= n < bound -> P n = true.
Proof.
  intros H n Hn. rewrite forallb_forall in H. apply H.
  apply in_map_iff. exists (Z.to_nat n). split; [lia|].
  apply in_seq. lia.
Qed.

Lemma fmt_0d_2 (n : Z) : 0 <= n < 100 -> CStr.fmt_0d 2 n = fixed_digits 2 n.
Proof.
  intros H. apply String.eqb_eq.
  apply (forall_below (fun z => (CStr.fmt_0d 2 z =? fixed_digits 2 z)%string) 100);
    [vm_compute; reflexivity | lia].
Qed.

Lemma fmt_0d_4 (n : Z) : 0 <= n < 10000 -> CStr.fmt_0d 4 n = fixed_digits 4 n.
Proof.
  intros H. apply String.eqb_eq.
  apply (forall_below (fun z => (CStr.fmt_0d 4 z =? fixed_digits 4 z)%string) 10000);
    [vm_compute; reflexivity | lia].
Qed.

(** ** The PVOutput report *)

Section Report.

Variable cfg : Defs.
Variable lib : Libs.

(** C8: [pvOutputSend] returns true exactly when the request could be begun
    and the POST answered status 200; it then stores the epoch time read
    after the exchange as the last-published time and changes nothing else.
    In every other case (another status, a transport error code, a failed
    begin) it returns false and leaves every global as it was. *)
Theorem pvOutputSend_succeeds_iff_200 (i : SendIn) (g : Globals) :
  (fst (fst (pvOutputSend cfg lib i g)) = true <->
     ps_beginOk i = true /\ ps_httpCode i = 200)
  /\ snd (fst (pvOutputSend cfg lib i g)) =
       (if fst (fst (pvOutputSend cfg lib i g))
        then set_energyTodayLastPublished g (getEpochTime cfg (ps_clock i))
        else g)
  /\ energyTodayLastPublished (snd (fst (pvOutputSend cfg lib i g))) =
       (if fst (fst (pvOutputSend cfg lib i g))
        then getEpochTime cfg (ps_clock i)
        else energyTodayLastPublished g).
Proof.
  unfold pvOutputSend.
  destruct (ps_beginOk i); cbn [negb].
  - destruct (Z.eqb_spec (ps_httpCode i) 200) as [E|E]; cbn [fst snd].
    + repeat split; auto.
    + repeat split; try discriminate. intros [_ H]. contradiction.
  - cbn [fst snd]. repeat split; try discriminate. intros [H _]. discriminate.
Qed.

(** C9: the date and time of the payload are those of the local time of the
    pending reading, which is its sample epoch plus [NTP_OFFSET] in 32-bit
    arithmetic.  When the calendar functions answer a year below 10000 and
    month, day, hour and minute below 100 for that local time, the payload
    is exactly d= followed by four, two and two digits, &t= followed by two
    digits, a colon and two digits, &v1= followed by the energy in decimal,
    and &c1=0; nothing is cut by the 512-byte buffer, and this text is the
    body that is posted. *)
Theorem report_payload_shape (g : Globals) :
  let timeLocal := (energyTodayLastUpdate g + NTP_OFFSET cfg) mod 2 ^ 32 in
  0 <= year lib timeLocal < 10000 ->
  0 <= month lib timeLocal < 100 ->
  0 <= day lib timeLocal < 100 ->
  0 <= hour lib timeLocal < 100 ->
  0 <= minute lib timeLocal < 100 ->
  post_data cfg lib g =
    ("d=" ++ fixed_digits 4 (year lib timeLocal)
          ++ fixed_digits 2 (month lib timeLocal)
          ++ fixed_digits 2 (day lib timeLocal)
     ++ "&t=" ++ fixed_digits 2 (hour lib timeLocal)
          ++ ":" ++ fixed_digits 2 (minute lib timeLocal)
     ++ "&v1=" ++ CStr.fmt_lu (energyToday g) ++ "&c1=0")%string
  /\ (forall i : SendIn, ps_beginOk i = true ->
        In (HttpPost (post_data cfg lib g)) (snd (pvOutputSend cfg lib i g))).
Proof.
  intros timeLocal Hy Hm Hd Hh Hmi. split.
  - assert (Hlocal : toLocalTime cfg (energyTodayLastUpdate g) = timeLocal)
      by reflexivity.
    unfold post_data, post_data_text, CStr.snprintf. rewrite Hlocal.
    rewrite fmt_0d_4, !fmt_0d_2 by assumption.
    apply take_all.
    pose proof (fmt_lu_length (energyToday g)) as Hl.
    repeat (rewrite string_length_app || rewrite fixed_digits_length).
    cbn [String.length]. lia.
  - intros i Hb. unfold pvOutputSend. rewrite Hb. cbn [negb].
    destruct (ps_httpCode i =? 200); cbn [snd]; right; left; reflexivity.
Qed.

(** What a stats cycle leaves alone. *)
Lemma inverterUpdateStatus_frame (i : StatusIn) (g : Globals) :
  energyTodayLastPublished (fst (inverterUpdateStatus cfg lib i g)) =
    energyTodayLastPublished g
  /\ existsb is_http (snd (inverterUpdateStatus cfg lib i g)) = false
  /\ existsb is_mqtt_connect (snd (inverterUpdateStatus cfg lib i g)) = false.
Proof.
  unfold inverterUpdateStatus.
  destruct (inverterOnline (su_state i)); cbn [negb fst snd]; [|auto].
  destruct (su_mqttUp i); [|auto].
  destruct (Float32.isnan (rd_pIn (cycle_readings i))); cbn; auto.
Qed.

(** C1 (what the code does): [pvOutputUpdatePending] is a plain local of
    [loop], false at the start of every pass.  In a pass whose energy window
    is not due no report is attempted and the flag is false when the pass
    ends, whatever the globals hold, so a report that failed in an earlier
    pass is not retried. *)
Theorem pending_flag_reset_each_pass (i : LoopIn) (g : Globals) (w : LoopStatics) :
  loopStatics g = Some w ->
  window_due (getEpochTime cfg (lp_clockUpdate i)) (nextUpdateTime w) = false ->
  lo_pending (loop cfg lib i g) = false
  /\ existsb is_http (lo_trace (loop cfg lib i g)) = false
  /\ energyTodayLastPublished (lo_globals (loop cfg lib i g)) =
       energyTodayLastPublished g.
Proof.
  intros Hw Hdue. unfold loop, loop_statics, loop_energy_window.
  rewrite Hw, Hdue. unfold loop_stats_window.
  destruct (window_due _ (nextStatsTime w)).
  - pose proof (inverterUpdateStatus_frame (lp_status i) g) as (Hp & Hh & _).
    destruct (inverterUpdateStatus cfg lib (lp_status i) g) as [g' tr].
    cbn in *. rewrite !existsb_app, Hh. cbn. auto.
  - cbn. auto.
Qed.

End Report.

(** ** Diagnostics on the broker *)

Section Diagnostics.

Variable cfg : Defs.
Variable lib : Libs.

Lemma mqttLog_no_connect (connected : bool) (text : string) :
  existsb is_mqtt_connect (mqttLog cfg connected text) = false.
Proof. destruct connected; reflexivity. Qed.

Lemma pvOutputSend_no_connect (i : SendIn) (g : Globals) :
  existsb is_mqtt_connect (snd (pvOutputSend cfg lib i g)) = false.
Proof.
  unfold pvOutputSend.
  destruct (ps_beginOk i); cbn [negb]; [|reflexivity].
  assert (H : forall l, existsb is_mqtt_connect
            (HttpBegin pvoutputAddStatsUrl :: HttpPost (post_data cfg lib g) :: l)
            = existsb is_mqtt_connect l) by reflexivity.
  destruct (ps_httpCode i =? 200); cbn [snd]; rewrite H;
    destruct (0 <? ps_httpCode i); apply mqttLog_no_connect.
Qed.

Lemma loop_energy_window_no_connect (i : LoopIn) (next : Z) (p : bool) (g : Globals) :
  existsb is_mqtt_connect (snd (loop_energy_window cfg i next p g)) = false.
Proof.
  unfold loop_energy_window, inverterSetTime, inverterReadTodayEnergy.
  destruct (window_due _ next); [|reflexivity].
  destruct (ce_readState (rt_energy (lp_readToday i))); cbn [negb snd];
    [|reflexivity].
  cbn [app existsb is_mqtt_connect orb].
  rewrite existsb_app, mqttLog_no_connect. reflexivity.
Qed.

Lemma loop_stats_window_no_connect (i : LoopIn) (next : Z) (g : Globals) :
  existsb is_mqtt_connect (snd (loop_stats_window cfg lib i next g)) = false.
Proof.
  unfold loop_stats_window.
  destruct (window_due _ next); [|reflexivity].
  pose proof (inverterUpdateStatus_frame cfg lib (lp_status i) g) as (_ & _ & H).
  destruct (inverterUpdateStatus cfg lib (lp_status i) g) as [g' tr].
  cbn in *. rewrite existsb_app, H. reflexivity.
Qed.

Lemma loop_report_no_connect (i : LoopIn) (p : bool) (g : Globals) :
  existsb is_mqtt_connect (snd (loop_report cfg lib i p g)) = false.
Proof.
  unfold loop_report.
  destruct p; [|reflexivity]. destruct (lp_wifiUp i); [|reflexivity].
  pose proof (pvOutputSend_no_connect (lp_send i) g) as H.
  destruct (pvOutputSend cfg lib (lp_send i) g) as [[sent g'] tr].
  cbn in H. destruct sent; cbn [snd]; rewrite existsb_app, H; reflexivity.
Qed.

(** C3 (as amended): a diagnostic log line is published on the LOG topic
    only when the broker is connected at that moment; while it is
    disconnected the line is dropped and no connection is attempted.  No
    pass of [loop] ever attempts a broker connection.  The blocking
    reconnect exists only in [mqttConnectCheck], which [mqttSend] runs
    before publishing when its [waitForConnection] argument is true. *)
Theorem diagnostic_log_sent_only_when_connected (text : string) :
  mqttLog cfg false text = []
  /\ mqttLog cfg true text =
       [MqttPublish (mqttTopic cfg mqttTopicLog) (CStr.snprintf 1023 text) false]
  /\ (forall connected : bool,
        existsb is_mqtt_connect (mqttLog cfg connected text) = false)
  /\ (forall (i : LoopIn) (g : Globals),
        existsb is_mqtt_connect (lo_trace (loop cfg lib i g)) = false)
  /\ (forall (mac : string) (f : CStr.fmt1) (rest : list LinkObs),
        exists clientId : string,
          mqttSend cfg mac f text true (LinkDown true :: LinkUp :: rest) =
          Some ([MqttConnect clientId (mqttTopic cfg mqttTopicLwt) mqttMessageOffline;
                 MqttPublish (mqttTopic cfg mqttTopicLwt) mqttMessageOnline true;
                 MqttPublish (mqttTopic cfg f) text false], rest)).
Proof.
  split; [reflexivity|]. split; [reflexivity|].
  split; [intros c; apply mqttLog_no_connect|]. split.
  - intros i g. unfold loop.
    pose proof (loop_energy_window_no_connect i
                  (nextUpdateTime (loop_statics cfg i g)) false g) as H1.
    destruct (loop_energy_window _ _ _ _ _) as [[[n1 p1] g1] t1].
    pose proof (loop_stats_window_no_connect i
                  (nextStatsTime (loop_statics cfg i g)) g1) as H2.
    destruct (loop_stats_window _ _ _ _ _) as [[n2 g2] t2].
    pose proof (loop_report_no_connect i p1 g2) as H3.
    destruct (loop_report _ _ _ _ _) as [[p3 g3] t3].
    cbn in *. rewrite !existsb_app, H1, H2, H3. reflexivity.
  - intros mac f rest. eexists. reflexivity.
Qed.

End Diagnostics.

(** * The properties on concrete runs *)

Ltac by_eval := vm_compute; first [reflexivity | discriminate | split; [discriminate | reflexivity]].

(** First pass at boot epoch 1000 with the default periods: the energy
    deadline is 1200 and the stats deadline 1020. *)
Lemma loop_first_deadline_boot_1000 :
  let w := loop_statics default_defs (ex_pass 1000 200) ex_globals in
  (deadline EnergyWindow w = 1200
   /\ deadline EnergyWindow w mod 300 = 0 /\ 1000 < deadline EnergyWindow w)
  /\ (deadline StatsWindow w = 1020
      /\ deadline StatsWindow w mod 30 = 0 /\ 1000 < deadline StatsWindow w).
Proof.
  split.
  - exact (loop_first_deadline_aligned default_defs EnergyWindow
             (ex_pass 1000 200) ex_globals eq_refl eq_refl eq_refl).
  - exact (loop_first_deadline_aligned default_defs StatsWindow
             (ex_pass 1000 200) ex_globals eq_refl eq_refl eq_refl).
Defined.

(** C4 as stated fails at the top of the 32-bit range: booting at epoch
    4294967295 with period 300 wraps the first energy deadline to 104, which
    is neither a multiple of 300 nor after the boot epoch. *)
Lemma loop_first_deadline_wraps :
  let now := init_clock default_defs EnergyWindow (ex_pass 4294967295 200) in
  let next :=
    deadline EnergyWindow
      (loop_statics default_defs (ex_pass 4294967295 200) ex_globals) in
  now = 4294967295
  /\ next = 104
  /\ next <> now / 300 * 300 + 300
  /\ next mod 300 <> 0
  /\ next < now.
Proof. repeat split; by_eval. Qed.

(** After a blockage until epoch 2000 with the energy deadline at 1200,
    three passes move the deadline by one period each, to 2100. *)
Lemma loop_catches_up_one_period_per_pass :
  0 < period default_defs EnergyWindow
  /\ 1200 + 3 * 300 < ULong.modulus
  /\ deadline_of EnergyWindow
       (run_loop default_defs RefLibs.libs ex_blocked_passes (ex_scheduled 1200 2010))
     = 1200 + 3 * 300.
Proof.
  split; [reflexivity|]. split; [reflexivity|].
  destruct (loop_window_advances_by_period default_defs RefLibs.libs EnergyWindow
              ex_blocked_passes (ex_scheduled 1200 2010)
              {| nextUpdateTime := 1200; nextStatsTime := 2010 |}
              eq_refl eq_refl ltac:(by_eval) eq_refl)
    as (m & _ & Heq & Hall & _).
  rewrite Heq, Hall; [reflexivity|].
  intros i [<-|[<-|[<-|[]]]]; by_eval.
Defined.

(** C5 as stated fails at the top of the 32-bit range: advancing the energy
    deadline 4294967100 by the period 300 gives 104, not 4294967400, and the
    deadline has decreased. *)
Lemma loop_deadline_wraps :
  let g := ex_scheduled 4294967100 4294967280 in
  let g' := lo_globals (loop default_defs RefLibs.libs (ex_pass 4294967200 200) g) in
  deadline_of EnergyWindow g = 4294967100
  /\ window_due (window_clock default_defs EnergyWindow (ex_pass 4294967200 200))
       (deadline_of EnergyWindow g) = true
  /\ deadline_of EnergyWindow g' = 104
  /\ deadline_of EnergyWindow g' <> deadline_of EnergyWindow g + 300
  /\ deadline_of EnergyWindow g' < deadline_of EnergyWindow g.
Proof. repeat split; by_eval. Qed.

(** The report of 4200 Wh read at epoch 1200 gets status 500: the pass ends
    with the flag set, and the next pass, at epoch 1201, starts from a false
    flag and sends nothing. *)
Lemma failed_report_is_not_retried :
  lo_pending ex_failed_report = true
  /\ existsb is_http (lo_trace ex_failed_report) = true
  /\ energyTodayLastPublished (lo_globals ex_failed_report) = 0
  /\ (lo_pending
        (loop default_defs RefLibs.libs (ex_pass 1201 200) (lo_globals ex_failed_report))
      = false
      /\ existsb is_http
           (lo_trace
              (loop default_defs RefLibs.libs (ex_pass 1201 200)
                 (lo_globals ex_failed_report)))
         = false
      /\ energyTodayLastPublished
           (lo_globals
              (loop default_defs RefLibs.libs (ex_pass 1201 200)
                 (lo_globals ex_failed_report)))
         = energyTodayLastPublished (lo_globals ex_failed_report)).
Proof.
  split; [reflexivity|]. split; [reflexivity|]. split; [reflexivity|].
  exact (pending_flag_reset_each_pass default_defs RefLibs.libs (ex_pass 1201 200)
           (lo_globals ex_failed_report)
           {| nextUpdateTime := 1500; nextStatsTime := 1230 |} eq_refl eq_refl).
Defined.

(** A cycle whose daily-energy and second string-power reads fail, after a
    cycle in which every read succeeded: the new text holds NaN for the
    second string power and for the total, and 0 for today's energy. *)
Lemma partial_cycle_snapshot :
  inverterOnline (su_state ex_status_partial) = true
  /\ inverterStatus
       (fst (inverterUpdateStatus default_defs RefLibs.libs ex_status_partial
               ex_after_good_cycle))
     = format_status ex_partial_fields
  /\ field_value "p_in_2" ex_partial_fields = Some "NaN"
  /\ field_value "p_in" ex_partial_fields = Some "NaN"
  /\ field_value "energy_today" ex_partial_fields = Some "0".
Proof.
  split; [reflexivity|].
  destruct (status_snapshot_from_this_cycle default_defs RefLibs.libs
              ex_status_partial ex_after_good_cycle eq_refl)
    as (Htext & _ & _ & Hp2 & Hp & _ & _ & _ & _ & He & _).
  split; [exact Htext|].
  split; [exact (Hp2 eq_refl)|].
  split; [exact (Hp (or_intror eq_refl))|].
  exact (He eq_refl).
Defined.

(** C2 as stated fails for the energy fields: the daily-energy read of this
    cycle failed, the cycle before had read 4200, and the snapshot now holds
    the digit 0 for today's energy, not the missing marker. *)
Lemma failed_energy_read_is_printed_as_zero :
  let before := inverterStatus ex_after_good_cycle in
  let after :=
    inverterStatus
      (fst (inverterUpdateStatus default_defs RefLibs.libs ex_status_partial
              ex_after_good_cycle)) in
  ce_readState (su_energyDaily ex_status_partial) = false
  /\ field_value "energy_today"
       (status_fields RefLibs.libs 1020 (cycle_readings ex_status_ok) ex_globals)
     = Some "4200"
  /\ after = format_status ex_partial_fields
  /\ field_value "energy_today" ex_partial_fields = Some "0"
  /\ field_value "energy_today" ex_partial_fields <> Some "NaN".
Proof. repeat split; by_eval. Qed.

(** String powers 1200 W and 34 W: the total is their sum, printed 1234.00. *)
Lemma total_input_power_1234 :
  inverterOnline (su_state ex_status_ok) = true
  /\ rd_pIn (cycle_readings ex_status_ok)
     = Float32.add (Float32.of_Z 1200) (Float32.of_Z 34)
  /\ field_value "p_in"
       (status_fields RefLibs.libs 1020 (cycle_readings ex_status_ok) ex_globals)
     = Some "1234.00".
Proof.
  split; [reflexivity|].
  destruct (total_input_power_sum_or_missing default_defs RefLibs.libs
              ex_status_ok ex_globals eq_refl)
    as (_ & Hfield & Hsum & _).
  split; [exact (Hsum eq_refl eq_refl) | exact Hfield].
Defined.

(** C6 as stated fails where the sum needs more than 24 bits: both reads
    succeed with 16777216 W and 1 W, and the total is 16777216 W, which is
    not the exact sum 16777217 and equals the first string power alone. *)
Lemma total_input_power_rounds_the_sum :
  let r := cycle_readings ex_status_large in
  dsp_readState (su_pin1 ex_status_large) = true
  /\ dsp_readState (su_pin2 ex_status_large) = true
  /\ float_integer (rd_pIn1 r) = Some 16777216
  /\ float_integer (rd_pIn2 r) = Some 1
  /\ float_integer (rd_pIn r) = Some 16777216
  /\ float_integer (rd_pIn r) <> Some (16777216 + 1)
  /\ rd_pIn r = rd_pIn1 r
  /\ field_value "p_in" (status_fields RefLibs.libs 1020 r ex_globals)
     = Some "16777216.00".
Proof. repeat split; by_eval. Qed.

(** An offline cycle after a good one: same snapshot text, empty trace. *)
Lemma offline_cycle_example :
  inverterOnline (su_state ex_status_offline) = false
  /\ inverterStatus
       (fst (inverterUpdateStatus default_defs RefLibs.libs ex_status_offline
               ex_after_good_cycle))
     = inverterStatus ex_after_good_cycle
  /\ snd (inverterUpdateStatus default_defs RefLibs.libs ex_status_offline
            ex_after_good_cycle) = [].
Proof.
  split; [reflexivity|].
  destruct (offline_cycle_leaves_snapshot default_defs RefLibs.libs
              ex_status_offline ex_after_good_cycle eq_refl)
    as (Htext & _ & Htrace).
  split; assumption.
Defined.

(** With the broker connected: POWER then STAT when both string powers were
    read, STAT alone when the second string power failed. *)
Lemma stats_cycle_publishes_example :
  (exists status : string,
     snd (inverterUpdateStatus default_defs RefLibs.libs ex_status_ok ex_globals)
     = [MqttPublish "tele/inverter/POWER" "1234.00" false;
        MqttPublish "tele/inverter/STAT" status false])
  /\ snd (inverterUpdateStatus default_defs RefLibs.libs ex_status_partial
            ex_after_good_cycle)
     = [MqttPublish "tele/inverter/STAT" (format_status ex_partial_fields) false].
Proof.
  split.
  - eexists.
    exact (proj1 (stats_cycle_publishes default_defs RefLibs.libs
                    ex_status_ok ex_globals eq_refl eq_refl)).
  - exact (proj2 (stats_cycle_publishes default_defs RefLibs.libs
                    ex_status_partial ex_after_good_cycle eq_refl eq_refl)
             (or_intror eq_refl)).
Defined.

(** A reading of 4200 Wh sampled at epoch 50000 with offset 0: the payload
    carries 1 January 1970, 13:53.  A reading sampled at epoch 60000 with an
    offset of ten hours: the payload carries the local date and time,
    2 January 1970, 02:40, not the date and time of the epoch itself. *)
Lemma report_payload_4200_at_50000 :
  (post_data default_defs RefLibs.libs ex_reading = "d=19700101&t=13:53&v1=4200&c1=0"
   /\ In (HttpPost "d=19700101&t=13:53&v1=4200&c1=0")
        (snd (pvOutputSend default_defs RefLibs.libs (ex_send 200 50300) ex_reading)))
  /\ (post_data ex_defs_offset RefLibs.libs ex_reading_late
      = "d=19700102&t=02:40&v1=4200&c1=0"
      /\ In (HttpPost "d=19700102&t=02:40&v1=4200&c1=0")
           (snd (pvOutputSend ex_defs_offset RefLibs.libs (ex_send 200 60300)
                   ex_reading_late))).
Proof.
  split.
  - destruct (report_payload_shape default_defs RefLibs.libs ex_reading
                ltac:(by_eval) ltac:(by_eval) ltac:(by_eval) ltac:(by_eval)
                ltac:(by_eval))
      as (Hshape & Hposted).
    split; [exact Hshape | exact (Hposted (ex_send 200 50300) eq_refl)].
  - destruct (report_payload_shape ex_defs_offset RefLibs.libs ex_reading_late
                ltac:(by_eval) ltac:(by_eval) ltac:(by_eval) ltac:(by_eval)
                ltac:(by_eval))
      as (Hshape & Hposted).
    split; [exact Hshape | exact (Hposted (ex_send 200 60300) eq_refl)].
Defined.

(** Status 200 and status 500 for the same reading. *)
Example pvOutputSend_200_and_500 :
  fst (pvOutputSend default_defs RefLibs.libs (ex_send 200 50300) ex_reading)
  = (true, set_energyTodayLastPublished ex_reading 50300)
  /\ fst (pvOutputSend default_defs RefLibs.libs (ex_send 500 50300) ex_reading)
     = (false, ex_reading)
  /\ fst (pvOutputSend default_defs RefLibs.libs (ex_send (-1) 50300) ex_reading)
     = (false, ex_reading).
Proof. repeat split. Qed.

(** C3 as stated fails: with the broker link down, the diagnostic line about
    a PVOutput answer is dropped, and the trace of the send holds the HTTP
    exchange only, with no connection attempt and no publish. *)
Lemma diagnostic_dropped_without_reconnect :
  let trace := snd (pvOutputSend default_defs RefLibs.libs ex_send_link_down ex_reading) in
  ps_mqttUp ex_send_link_down = false
  /\ mqttLog default_defs false "PV Output update" = []
  /\ trace = [HttpBegin pvoutputAddStatsUrl;
              HttpPost "d=19700101&t=13:53&v1=4200&c1=0"]
  /\ existsb is_mqtt_connect trace = false
  /\ existsb is_mqtt_publish trace = false.
Proof. repeat split. Qed.

(** * The rest of the firmware *)

(** ** Time *)

Section TimeRest.

Variable cfg : Defs.

(** X1: shifting an in-range epoch time to local time and back, or back and
    to, gives the time itself, for every offset: the 32-bit wrap-around of
    the two additions cancels. *)
Theorem local_time_round_trip (t : Z) :
  0 <= t < ULong.modulus ->
  fromLocalTime cfg (toLocalTime cfg t) = t
  /\ toLocalTime cfg (fromLocalTime cfg t) = t.
Proof.
  intros Ht. unfold fromLocalTime, toLocalTime, ULong.sub, ULong.add, ULong.wrap.
  split.
  - rewrite Zminus_mod_idemp_l.
    replace (t + NTP_OFFSET cfg - NTP_OFFSET cfg) with t by ring.
    now apply Z.mod_small.
  - rewrite Zplus_mod_idemp_l.
    replace (t - NTP_OFFSET cfg + NTP_OFFSET cfg) with t by ring.
    now apply Z.mod_small.
Qed.

(** X2: [inverterSetTime] writes to the inverter exactly the time the NTP
    client answered, whatever [NTP_OFFSET] is, and returns whether the write
    succeeded; the time read from the inverter plays no part. *)
Theorem inverterSetTime_writes_ntp_time (i : SetTimeIn) :
  0 <= st_clock i < ULong.modulus ->
  inverterSetTime cfg i = (st_writeOk i, [InverterWriteTimeDate (st_clock i)]).
Proof.
  intros Ht. unfold inverterSetTime, getEpochTime.
  unfold fromLocalTime, toLocalTime, ULong.sub, ULong.add, ULong.wrap.
  rewrite Zplus_mod_idemp_l.
  replace (st_clock i - NTP_OFFSET cfg + NTP_OFFSET cfg) with (st_clock i) by ring.
  rewrite Z.mod_small by assumption. reflexivity.
Qed.

End TimeRest.

(** ** Timed waits *)

Lemma elapsed_since (tStart e : Z) :
  0 <= e < ULong.modulus -> ULong.sub (ULong.add tStart e) tStart = e.
Proof.
  intros He. unfold ULong.sub, ULong.add, ULong.wrap.
  rewrite Zminus_mod_idemp_l.
  replace (tStart + e - tStart) with e by ring.
  now apply Z.mod_small.
Qed.

(** X3: [runLoopDelay] runs the handlers once for each reading of [millis()]
    taken before [delayTime] has elapsed and returns at the first reading
    taken later.  Only the elapsed time counts: the readings are [tStart]
    plus the elapsed time modulo 2^32, so a wrap of the millisecond counter
    during the wait changes nothing. *)
Theorem runLoopDelay_counts_elapsed_time (delayTime tStart late : Z)
    (early more : list Z) :
  Forall (fun e => 0 <= e < ULong.modulus /\ e < delayTime) early ->
  0 <= late < ULong.modulus ->
  delayTime <= late ->
  runLoopDelay delayTime
    (tStart :: map (ULong.add tStart) (early ++ late :: more))
  = Some (repeat LoopHandlers (List.length early), map (ULong.add tStart) more).
Proof.
  intros Hearly Hlate Hdue. cbn [runLoopDelay].
  induction Hearly as [|e early [He Hlt] _ IH]; cbn.
  - rewrite elapsed_since by assumption.
    destruct (Z.ltb_spec late delayTime); [lia | reflexivity].
  - rewrite elapsed_since by assumption.
    destruct (Z.ltb_spec e delayTime); [|lia].
    cbn in IH. rewrite IH. reflexivity.
Qed.

(** ** The MAC address *)

Lemma fmt_0x_2 (b : Z) :
  0 <= b < 256 ->
  CHex.fmt_0x 2 b =
  String (CHex.hex_digit (b / 16)) (String (CHex.hex_digit (b mod 16)) EmptyString).
Proof.
  intros H. apply String.eqb_eq.
  apply (forall_below
           (fun z => (CHex.fmt_0x 2 z =?
                      String (CHex.hex_digit (z / 16))
                        (String (CHex.hex_digit (z mod 16)) EmptyString))%string) 256);
    [vm_compute; reflexivity | lia].
Qed.

Lemma hex_value_digit (d : Z) : 0 <= d < 16 -> hex_value (CHex.hex_digit d) = d.
Proof.
  intros H. apply Z.eqb_eq.
  apply (forall_below (fun z => hex_value (CHex.hex_digit z) =? z) 16);
    [vm_compute; reflexivity | lia].
Qed.

Lemma hex_pair_value (b : Z) :
  0 <= b < 256 ->
  16 * hex_value (CHex.hex_digit (b / 16)) + hex_value (CHex.hex_digit (b mod 16)) = b.
Proof.
  intros H.
  assert (0 <= b / 16 < 16) by (split; [apply Z.div_pos | apply Z.div_lt_upper_bound]; lia).
  assert (0 <= b mod 16 < 16) by (apply Z.mod_pos_bound; lia).
  rewrite !hex_value_digit by assumption.
  pose proof (Z.div_mod b 16). lia.
Qed.

(** X4: for every MAC address (six bytes below 256) [readWifiMac] stores
    exactly twelve hexadecimal digits, none cut by the 13-byte buffer, from
    which the six bytes are read back: different addresses give different
    identifiers.  No other global changes. *)
Theorem readWifiMac_round_trip (m : MacBytes) (g : Globals) :
  byte_range (mac0 m) -> byte_range (mac1 m) -> byte_range (mac2 m) ->
  byte_range (mac3 m) -> byte_range (mac4 m) -> byte_range (mac5 m) ->
  String.length (wifiMac (readWifiMac m g)) = 12%nat
  /\ decode_hex_pairs (wifiMac (readWifiMac m g)) =
       [mac0 m; mac1 m; mac2 m; mac3 m; mac4 m; mac5 m]
  /\ readWifiMac m g = set_wifiMac g (wifiMac (readWifiMac m g)).
Proof.
  unfold byte_range. intros H0 H1 H2 H3 H4 H5.
  unfold readWifiMac. cbn [wifiMac set_wifiMac].
  rewrite !fmt_0x_2 by assumption.
  cbn [append CStr.snprintf CStr.take Nat.sub String.length decode_hex_pairs].
  rewrite !hex_pair_value by assumption.
  repeat split.
Qed.

(** ** The broker connection *)

Lemma string_app_assoc (a b c : string) : ((a ++ b) ++ c = a ++ (b ++ c))%string.
Proof. induction a as [|x a IH]; cbn; [reflexivity | now rewrite IH]. Qed.

Lemma string_app_inv_head (a b c : string) : (a ++ b = a ++ c)%string -> b = c.
Proof.
  induction a as [|x a IH]; cbn; intros H; [assumption|].
  injection H as H. now apply IH.
Qed.

Lemma take_length (n : nat) (s : string) : (String.length (CStr.take n s) <= n)%nat.
Proof.
  revert s. induction n as [|n IH]; intros [|c s]; cbn; try lia.
  specialize (IH s). lia.
Qed.

Lemma take_app_long (n : nat) (a b : string) :
  (n <= String.length a)%nat -> CStr.take n (a ++ b) = CStr.take n a.
Proof.
  revert a. induction n as [|n IH]; intros [|c a] H; cbn in *; try reflexivity.
  - lia.
  - rewrite IH by lia. reflexivity.
Qed.

Section Broker.

Variable cfg : Defs.

Lemma mqttConnectCheck_returns (mac : string) (script : list LinkObs) :
  returns (mqttConnectCheck cfg mac script) = existsb is_link_up script.
Proof.
  induction script as [|[|ok] rest IH]; cbn; try reflexivity.
  destruct (mqttConnectCheck cfg mac rest) as [[tr rest']|]; cbn in *; assumption.
Qed.


(** X6: for every topic name and every format, a topic never exceeds the
    62 characters the buffer [_mqttTopic] is given room for.  With a topic
    name of at most 51 characters nothing is cut: the four topics of the
    firmware are tele/<name>/LWT, /STAT, /POWER and /LOG, and they are
    pairwise different. *)
Theorem mqttTopic_distinct_when_short (f : CStr.fmt1) :
  (String.length (mqttTopic cfg f) <= 62)%nat
  /\ ((String.length (MQTT_TOPIC cfg) <= 51)%nat ->
      mqttTopic cfg mqttTopicLwt = ("tele/" ++ MQTT_TOPIC cfg ++ "/LWT")%string
      /\ mqttTopic cfg mqttTopicStat = ("tele/" ++ MQTT_TOPIC cfg ++ "/STAT")%string
      /\ mqttTopic cfg mqttTopicPower = ("tele/" ++ MQTT_TOPIC cfg ++ "/POWER")%string
      /\ mqttTopic cfg mqttTopicLog = ("tele/" ++ MQTT_TOPIC cfg ++ "/LOG")%string
      /\ NoDup [mqttTopic cfg mqttTopicLwt; mqttTopic cfg mqttTopicStat;
                mqttTopic cfg mqttTopicPower; mqttTopic cfg mqttTopicLog]).
Proof.
  split; [apply take_length|].
  intros Hname.
  assert (Hfull : forall post : string,
            (String.length post <= 6)%nat ->
            mqttTopic cfg (CStr.Fmt1 "tele/" post)
            = ("tele/" ++ MQTT_TOPIC cfg ++ post)%string).
  { intros post Hpost. unfold mqttTopic, CStr.snprintf, CStr.sprintf1.
    cbn [CStr.fmt_pre CStr.fmt_post]. apply take_all.
    rewrite !string_length_app. cbn [String.length]. lia. }
  unfold mqttTopicLwt, mqttTopicStat, mqttTopicPower, mqttTopicLog.
  rewrite !Hfull by (cbn; lia).
  repeat split.
  assert (Hne : forall p q : string, p <> q ->
            ("tele/" ++ MQTT_TOPIC cfg ++ p)%string <> ("tele/" ++ MQTT_TOPIC cfg ++ q)%string).
  { intros p q Hpq H. apply Hpq.
    apply (string_app_inv_head (MQTT_TOPIC cfg)).
    apply (string_app_inv_head "tele/"). exact H. }
  repeat constructor; cbn [In]; intros H;
    repeat (destruct H as [H|H]; [revert H; apply Hne; discriminate|]);
    exact H.
Qed.

(** X7: with a topic name of 57 characters or more the buffer cuts every
    topic after the name or inside it, so the LWT, STAT, POWER and LOG
    messages are all published on one and the same topic. *)
Theorem mqttTopic_collide_when_long (f : CStr.fmt1) :
  (57 <= String.length (MQTT_TOPIC cfg))%nat ->
  CStr.fmt_pre f = "tele/" ->
  mqttTopic cfg f = CStr.take 62 ("tele/" ++ MQTT_TOPIC cfg)
  /\ mqttTopic cfg mqttTopicStat = mqttTopic cfg mqttTopicPower
  /\ mqttTopic cfg mqttTopicStat = mqttTopic cfg mqttTopicLog
  /\ mqttTopic cfg mqttTopicStat = mqttTopic cfg mqttTopicLwt.
Proof.
  intros Hname Hpre.
  assert (Hcut : forall h : CStr.fmt1, CStr.fmt_pre h = "tele/" ->
            mqttTopic cfg h = CStr.take 62 ("tele/" ++ MQTT_TOPIC cfg)).
  { intros h Hh. unfold mqttTopic, CStr.snprintf, CStr.sprintf1. rewrite Hh.
    rewrite <- string_app_assoc. apply take_app_long.
    rewrite string_length_app. cbn [String.length]. lia. }
  split; [now apply Hcut|].
  rewrite !Hcut by reflexivity. auto.
Qed.

End Broker.

(** ** Buffers of the status and of the report *)

Lemma zeros_length (n : nat) : String.length (CStr.zeros n) = n.
Proof. induction n as [|n IH]; cbn; [reflexivity | now rewrite IH]. Qed.

Lemma fmt_0d_length (width : nat) (z : Z) :
  (String.length (CStr.fmt_0d width z) <= Nat.max width 10 + 1)%nat.
Proof.
  unfold CStr.fmt_0d. destruct (z <? 0).
  - pose proof (fmt_lu_length (- z)) as H. cbn [String.length].
    rewrite string_length_app, zeros_length. lia.
  - pose proof (fmt_lu_length z) as H.
    rewrite string_length_app, zeros_length. lia.
Qed.

Section Buffers.

Variable cfg : Defs.
Variable lib : Libs.

Lemma formatFloat_length (val : Float32.float) :
  (String.length (_formatFloat lib 20 val) <= 18)%nat.
Proof.
  unfold _formatFloat. destruct (Float32.isnan val).
  - cbn. lia.
  - apply take_length.
Qed.

(** X8: whatever the readings, the timestamps and the text the C library
    prints for a float, the status text is at most 386 characters long and
    the 2048-byte buffer [inverterStatus] cuts nothing of it: the snapshot
    is always the complete object, from the opening to the closing brace. *)
Theorem status_text_never_truncated (now : Z) (r : Readings) (g : Globals) :
  format_status (status_fields lib now r g) =
    ("{" ++ CStr.join ", " (map format_field (status_fields lib now r g)) ++ "}")%string
  /\ (String.length (format_status (status_fields lib now r g)) <= 386)%nat.
Proof.
  assert (Hlen : (String.length
            ("{" ++ CStr.join ", " (map format_field (status_fields lib now r g)) ++ "}")
            <= 386)%nat).
  { unfold status_fields.
    cbn [map CStr.join]. unfold format_field, CStr.dquote. cbn [fst snd].
    pose proof (fmt_lu_length now).
    pose proof (fmt_lu_length (rd_energyToday r)).
    pose proof (fmt_lu_length (rd_energyLifetime r)).
    pose proof (fmt_lu_length (energyTodayLastUpdate g)).
    pose proof (fmt_lu_length (energyTodayLastPublished g)).
    pose proof (formatFloat_length (rd_pIn r)).
    pose proof (formatFloat_length (rd_pIn1 r)).
    pose proof (formatFloat_length (rd_pIn2 r)).
    pose proof (formatFloat_length (rd_vGrid r)).
    pose proof (formatFloat_length (rd_fGrid r)).
    pose proof (formatFloat_length (rd_tempInverter r)).
    pose proof (formatFloat_length (rd_tempBooster r)).
    repeat rewrite string_length_app. cbn [String.length]. lia. }
  assert (Heq : format_status (status_fields lib now r g) =
            ("{" ++ CStr.join ", " (map format_field (status_fields lib now r g)) ++ "}")%string).
  { unfold format_status, CStr.snprintf. apply take_all.
    change (2048 - 1)%nat with 2047%nat. lia. }
  split; [exact Heq | rewrite Heq; exact Hlen].
Qed.

(** X9: whatever the calendar functions answer, the report payload is at
    most 80 characters long and the 512-byte buffer [post_data] cuts nothing
    of it: the body that is posted always ends with &c1=0. *)
Theorem post_data_never_truncated (g : Globals) :
  post_data cfg lib g =
    post_data_text lib (toLocalTime cfg (energyTodayLastUpdate g)) (energyToday g)
  /\ (String.length (post_data cfg lib g) <= 80)%nat
  /\ exists front : string, post_data cfg lib g = (front ++ "&c1=0")%string.
Proof.
  set (tl := toLocalTime cfg (energyTodayLastUpdate g)).
  assert (Hlen : (String.length (post_data_text lib tl (energyToday g)) <= 80)%nat).
  { unfold post_data_text.
    pose proof (fmt_0d_length 4 (year lib tl)).
    pose proof (fmt_0d_length 2 (month lib tl)).
    pose proof (fmt_0d_length 2 (day lib tl)).
    pose proof (fmt_0d_length 2 (hour lib tl)).
    pose proof (fmt_0d_length 2 (minute lib tl)).
    pose proof (fmt_lu_length (energyToday g)).
    repeat rewrite string_length_app. cbn [String.length]. lia. }
  assert (Heq : post_data cfg lib g = post_data_text lib tl (energyToday g)).
  { unfold post_data, CStr.snprintf. fold tl. apply take_all.
    change (512 - 1)%nat with 511%nat. lia. }
  split; [exact Heq|]. split; [rewrite Heq; exact Hlen|].
  rewrite Heq. unfold post_data_text.
  eexists. rewrite <- !string_app_assoc. reflexivity.
Qed.

End Buffers.

(** ** The web handler *)

Section Web.

Variable cfg : Defs.
Variable lib : Libs.

(** X10: after an online stats cycle that found the broker connected, a GET
    on the web server answers 200 with exactly the text that the cycle
    published on the STAT topic; any other method answers 404 with the fixed
    body and shows nothing of the snapshot. *)
Theorem web_serves_published_snapshot (i : StatusIn) (g : Globals) (m : HTTPMethod) :
  inverterOnline (su_state i) = true ->
  su_mqttUp i = true ->
  let g' := fst (inverterUpdateStatus cfg lib i g) in
  webHandleRoot HTTP_GET g' =
    {| resp_code := 200; resp_content_type := "application/json";
       resp_body := inverterStatus g' |}
  /\ In (MqttPublish (mqttTopic cfg mqttTopicStat)
           (resp_body (webHandleRoot HTTP_GET g')) false)
        (snd (inverterUpdateStatus cfg lib i g))
  /\ (is_get m = false ->
      webHandleRoot m g' =
        {| resp_code := 404; resp_content_type := "text/html";
           resp_body := ("Not Found" ++ crlf)%string |}).
Proof.
  intros Hon Hup g'. split; [reflexivity|]. split.
  - subst g'. rewrite inverterUpdateStatus_online by assumption.
    rewrite Hup. cbn [fst snd webHandleRoot is_get negb resp_body inverterStatus set_inverterStatus].
    apply in_or_app. right. left. reflexivity.
  - intros Hm. unfold webHandleRoot. rewrite Hm. reflexivity.
Qed.

End Web.

(** ** How the parts of one pass of [loop] compose *)

Section Pass.

Variable cfg : Defs.
Variable lib : Libs.

Lemma loop_eq (i : LoopIn) (g : Globals) :
  loop cfg lib i g =
  let w := loop_statics cfg i g in
  let e := loop_energy_window cfg i (nextUpdateTime w) false g in
  let s := loop_stats_window cfg lib i (nextStatsTime w) (snd (fst e)) in
  let r := loop_report cfg lib i (snd (fst (fst e))) (snd (fst s)) in
  {| lo_globals :=
       set_loopStatics (snd (fst r))
         {| nextUpdateTime := fst (fst (fst e)); nextStatsTime := fst (fst s) |};
     lo_trace := (LoopHandlers :: snd e ++ snd s ++ snd r)%list;
     lo_pending := fst (fst r) |}.
Proof.
  unfold loop. cbv zeta.
  destruct (loop_energy_window _ _ _ _ _) as [[[n1 p1] g1] t1].
  destruct (loop_stats_window _ _ _ _ _) as [[n2 g2] t2].
  destruct (loop_report _ _ _ _ _) as [[p3 g3] t3].
  reflexivity.
Qed.

(** The energy window: what it leaves alone and what it sets. *)
Lemma energy_window_facts (i : LoopIn) (next : Z) (p : bool) (g : Globals) :
  let e := loop_energy_window cfg i next p g in
  let due := window_due (getEpochTime cfg (lp_clockUpdate i)) next in
  let ok := ce_readState (rt_energy (lp_readToday i)) in
  existsb is_http (snd e) = false
  /\ energyTodayLastPublished (snd (fst e)) = energyTodayLastPublished g
  /\ inverterStatus (snd (fst e)) = inverterStatus g
  /\ snd (fst (fst e)) = (if due && ok then true else p)
  /\ snd (fst e) =
       (if due && ok
        then set_energyToday g (ce_energy (rt_energy (lp_readToday i)))
               (getEpochTime cfg (rt_clock (lp_readToday i)))
        else g)
  /\ (rt_mqttUp (lp_readToday i) = false -> existsb is_mqtt_publish (snd e) = false)
  /\ (due = true -> ok = false -> In (LedFlashFast 4) (snd e)).
Proof.
  unfold loop_energy_window, inverterSetTime, inverterReadTodayEnergy.
  destruct (window_due _ next); cbn [andb].
  - destruct (ce_readState (rt_energy (lp_readToday i))); cbn [negb fst snd].
    + repeat split; try discriminate.
      * cbn. rewrite existsb_app. unfold mqttLog.
        destruct (rt_mqttUp (lp_readToday i)); reflexivity.
      * intros Hup. rewrite Hup. reflexivity.
    + repeat split; try discriminate. intros _ _. cbn. auto.
  - cbn. repeat split; discriminate.
Qed.

Lemma stats_window_facts (i : LoopIn) (next : Z) (g : Globals) :
  let s := loop_stats_window cfg lib i next g in
  let due := window_due (getEpochTime cfg (lp_clockStats i)) next in
  existsb is_http (snd s) = false
  /\ energyTodayLastPublished (snd (fst s)) = energyTodayLastPublished g
  /\ energyToday (snd (fst s)) = energyToday g
  /\ energyTodayLastUpdate (snd (fst s)) = energyTodayLastUpdate g
  /\ (su_mqttUp (lp_status i) = false -> existsb is_mqtt_publish (snd s) = false)
  /\ inverterStatus (snd (fst s)) =
       (if due && inverterOnline (su_state (lp_status i))
        then format_status
               (status_fields lib (getEpochTime cfg (su_clock (lp_status i)))
                  (cycle_readings (lp_status i)) g)
        else inverterStatus g).
Proof.
  unfold loop_stats_window.
  destruct (window_due _ next); cbn [andb].
  - unfold inverterUpdateStatus.
    destruct (inverterOnline (su_state (lp_status i))); cbn [negb fst snd].
    + repeat split.
      * destruct (su_mqttUp (lp_status i)); [|reflexivity].
        destruct (Float32.isnan _); reflexivity.
      * intros Hup. rewrite Hup. reflexivity.
    + repeat split.
  - repeat split.
Qed.

Lemma report_facts (i : LoopIn) (p : bool) (g : Globals) :
  let r := loop_report cfg lib i p g in
  let tried := p && lp_wifiUp i in
  let sent := tried && ps_beginOk (lp_send i) && (ps_httpCode (lp_send i) =? 200) in
  existsb is_http (snd r) = tried
  /\ fst (fst r) = p && negb sent
  /\ energyTodayLastPublished (snd (fst r)) =
       (if sent then getEpochTime cfg (ps_clock (lp_send i))
        else energyTodayLastPublished g)
  /\ inverterStatus (snd (fst r)) = inverterStatus g
  /\ energyToday (snd (fst r)) = energyToday g
  /\ energyTodayLastUpdate (snd (fst r)) = energyTodayLastUpdate g
  /\ (ps_mqttUp (lp_send i) = false -> existsb is_mqtt_publish (snd r) = false).
Proof.
  unfold loop_report, pvOutputSend.
  destruct p; cbn [andb]; [|repeat split].
  destruct (lp_wifiUp i); cbn [andb]; [|repeat split].
  destruct (ps_beginOk (lp_send i)); cbn [negb andb].
  - destruct (ps_httpCode (lp_send i) =? 200); cbn [fst snd negb];
      repeat split; intros Hup; rewrite Hup; cbn;
      destruct (0 <? ps_httpCode (lp_send i)); reflexivity.
  - cbn. repeat split.
Qed.

(** X11: what one pass of [loop] does about the report.  A request to
    PVOutput is made exactly when the energy window is due, the daily energy
    read succeeds and WiFi is connected.  The last-published time changes
    exactly when that request could be begun and answered 200, and becomes
    the time read after the exchange.  The pass ends with the flag set
    exactly when a reading was taken and not delivered. *)
Theorem loop_report_outcome (i : LoopIn) (g : Globals) :
  let due :=
    window_due (getEpochTime cfg (lp_clockUpdate i))
      (nextUpdateTime (loop_statics cfg i g)) in
  let taken := due && ce_readState (rt_energy (lp_readToday i)) in
  let tried := taken && lp_wifiUp i in
  let sent := tried && ps_beginOk (lp_send i) && (ps_httpCode (lp_send i) =? 200) in
  existsb is_http (lo_trace (loop cfg lib i g)) = tried
  /\ energyTodayLastPublished (lo_globals (loop cfg lib i g)) =
       (if sent then getEpochTime cfg (ps_clock (lp_send i))
        else energyTodayLastPublished g)
  /\ lo_pending (loop cfg lib i g) = taken && negb sent.
Proof.
  intros due taken tried sent. rewrite loop_eq. cbv zeta.
  cbn [lo_trace lo_globals lo_pending].
  set (w := loop_statics cfg i g) in *.
  pose proof (energy_window_facts i (nextUpdateTime w) false g)
    as (He1 & He2 & _ & He4 & _).
  set (e := loop_energy_window cfg i (nextUpdateTime w) false g) in *.
  pose proof (stats_window_facts i (nextStatsTime w) (snd (fst e)))
    as (Hs1 & Hs2 & _).
  set (s := loop_stats_window cfg lib i (nextStatsTime w) (snd (fst e))) in *.
  pose proof (report_facts i (snd (fst (fst e))) (snd (fst s)))
    as (Hr1 & Hr2 & Hr3 & _).
  set (r := loop_report cfg lib i (snd (fst (fst e))) (snd (fst s))) in *.
  assert (Hp : snd (fst (fst e)) = taken).
  { rewrite He4. subst taken due.
    destruct (window_due _ _ && ce_readState _); reflexivity. }
  rewrite Hp in Hr1, Hr2, Hr3.
  split; [|split].
  - cbn [existsb is_http]. rewrite !existsb_app, He1, Hs1, Hr1. reflexivity.
  - cbn [set_loopStatics energyTodayLastPublished]. rewrite Hr3, Hs2, He2. reflexivity.
  - exact Hr2.
Qed.

(** X12: when the broker is found disconnected at every check of a pass,
    the pass publishes nothing and attempts no connection, but the snapshot
    is refreshed all the same: if the stats window is due and the inverter
    online, the web server serves the text of this cycle. *)
Theorem loop_silent_when_broker_down (i : LoopIn) (g : Globals) :
  rt_mqttUp (lp_readToday i) = false ->
  su_mqttUp (lp_status i) = false ->
  ps_mqttUp (lp_send i) = false ->
  existsb is_mqtt_publish (lo_trace (loop cfg lib i g)) = false
  /\ (window_due (getEpochTime cfg (lp_clockStats i))
        (nextStatsTime (loop_statics cfg i g)) = true ->
      inverterOnline (su_state (lp_status i)) = true ->
      exists g1 : Globals,
        energyTodayLastPublished g1 = energyTodayLastPublished g
        /\ resp_body (webHandleRoot HTTP_GET (lo_globals (loop cfg lib i g))) =
             format_status
               (status_fields lib (getEpochTime cfg (su_clock (lp_status i)))
                  (cycle_readings (lp_status i)) g1)).
Proof.
  intros Hrt Hsu Hps. rewrite loop_eq. cbv zeta.
  cbn [lo_trace lo_globals].
  set (w := loop_statics cfg i g) in *.
  pose proof (energy_window_facts i (nextUpdateTime w) false g)
    as (_ & He2 & _ & _ & _ & He6 & _).
  set (e := loop_energy_window cfg i (nextUpdateTime w) false g) in *.
  pose proof (stats_window_facts i (nextStatsTime w) (snd (fst e)))
    as (_ & _ & _ & _ & Hs5 & Hs6).
  set (s := loop_stats_window cfg lib i (nextStatsTime w) (snd (fst e))) in *.
  pose proof (report_facts i (snd (fst (fst e))) (snd (fst s)))
    as (_ & _ & _ & Hr4 & _ & _ & Hr7).
  set (r := loop_report cfg lib i (snd (fst (fst e))) (snd (fst s))) in *.
  split.
  - cbn [existsb is_mqtt_publish]. rewrite !existsb_app, (He6 Hrt), (Hs5 Hsu), (Hr7 Hps).
    reflexivity.
  - intros Hdue Hon. exists (snd (fst e)). split; [exact He2|].
    cbn [webHandleRoot is_get negb resp_body set_loopStatics inverterStatus].
    rewrite Hr4, Hs6, Hdue, Hon. reflexivity.
Qed.

(** X13: in a pass in which both windows are due, the daily energy read
    succeeds and the inverter is online, the snapshot built by the pass
    already shows the read of this pass as its last read time, but still
    shows the last-published time held before the pass, even when the report
    of this very pass is delivered: the status is formatted before the
    report is sent. *)
Theorem snapshot_shows_read_but_not_send (i : LoopIn) (g : Globals) :
  window_due (getEpochTime cfg (lp_clockUpdate i))
    (nextUpdateTime (loop_statics cfg i g)) = true ->
  ce_readState (rt_energy (lp_readToday i)) = true ->
  window_due (getEpochTime cfg (lp_clockStats i))
    (nextStatsTime (loop_statics cfg i g)) = true ->
  inverterOnline (su_state (lp_status i)) = true ->
  let read_at := getEpochTime cfg (rt_clock (lp_readToday i)) in
  let fields :=
    status_fields lib (getEpochTime cfg (su_clock (lp_status i)))
      (cycle_readings (lp_status i))
      (set_energyToday g (ce_energy (rt_energy (lp_readToday i))) read_at) in
  inverterStatus (lo_globals (loop cfg lib i g)) = format_status fields
  /\ field_value "last_pvoutput_read" fields = Some (CStr.fmt_lu read_at)
  /\ field_value "last_pvoutput_sent" fields =
       Some (CStr.fmt_lu (energyTodayLastPublished g))
  /\ (lp_wifiUp i = true -> ps_beginOk (lp_send i) = true ->
      ps_httpCode (lp_send i) = 200 ->
      energyTodayLastPublished (lo_globals (loop cfg lib i g)) =
        getEpochTime cfg (ps_clock (lp_send i))).
Proof.
  intros HdueE Hok HdueS Hon read_at fields.
  rewrite loop_eq. cbv zeta. cbn [lo_globals].
  set (w := loop_statics cfg i g) in *.
  pose proof (energy_window_facts i (nextUpdateTime w) false g)
    as (_ & _ & _ & He4 & He5 & _).
  set (e := loop_energy_window cfg i (nextUpdateTime w) false g) in *.
  pose proof (stats_window_facts i (nextStatsTime w) (snd (fst e)))
    as (_ & _ & _ & _ & _ & Hs6).
  set (s := loop_stats_window cfg lib i (nextStatsTime w) (snd (fst e))) in *.
  pose proof (report_facts i (snd (fst (fst e))) (snd (fst s)))
    as (_ & _ & Hr3 & Hr4 & _).
  set (r := loop_report cfg lib i (snd (fst (fst e))) (snd (fst s))) in *.
  cbv zeta in He4, He5, Hs6, Hr3. rewrite HdueE, Hok in He4, He5. cbn [andb] in He4, He5.
  rewrite HdueS, Hon, He5 in Hs6. cbn [andb] in Hs6.
  split; [|split; [|split]].
  - cbn [set_loopStatics inverterStatus]. rewrite Hr4. exact Hs6.
  - reflexivity.
  - reflexivity.
  - intros Hwifi Hbegin Hcode.
    cbn [set_loopStatics energyTodayLastPublished].
    rewrite Hr3, He4, Hwifi, Hbegin, Hcode. reflexivity.
Qed.

(** X14: when the energy window is due and the daily energy read fails, the
    energy value and its sample time keep their last good values, no report
    is attempted, the LED flashes four times, and the deadline still moves
    on by one period: the read is not tried again before the next period. *)
Theorem failed_energy_read_waits_a_period (i : LoopIn) (g : Globals) :
  window_due (getEpochTime cfg (lp_clockUpdate i))
    (nextUpdateTime (loop_statics cfg i g)) = true ->
  ce_readState (rt_energy (lp_readToday i)) = false ->
  energyToday (lo_globals (loop cfg lib i g)) = energyToday g
  /\ energyTodayLastUpdate (lo_globals (loop cfg lib i g)) = energyTodayLastUpdate g
  /\ existsb is_http (lo_trace (loop cfg lib i g)) = false
  /\ lo_pending (loop cfg lib i g) = false
  /\ In (LedFlashFast 4) (lo_trace (loop cfg lib i g))
  /\ deadline_of EnergyWindow (lo_globals (loop cfg lib i g)) =
       window_advance (nextUpdateTime (loop_statics cfg i g)) (period_pvoutput cfg).
Proof.
  intros Hdue Hfail. rewrite loop_eq. cbv zeta.
  cbn [lo_globals lo_trace lo_pending].
  set (w := loop_statics cfg i g) in *.
  pose proof (loop_energy_window_next cfg i (nextUpdateTime w) false g) as Hnext.
  pose proof (energy_window_facts i (nextUpdateTime w) false g)
    as (He1 & _ & _ & He4 & He5 & _ & He7).
  set (e := loop_energy_window cfg i (nextUpdateTime w) false g) in *.
  pose proof (stats_window_facts i (nextStatsTime w) (snd (fst e)))
    as (Hs1 & _ & Hs3 & Hs4 & _).
  set (s := loop_stats_window cfg lib i (nextStatsTime w) (snd (fst e))) in *.
  pose proof (report_facts i (snd (fst (fst e))) (snd (fst s)))
    as (Hr1 & Hr2 & _ & _ & Hr5 & Hr6 & _).
  set (r := loop_report cfg lib i (snd (fst (fst e))) (snd (fst s))) in *.
  cbv zeta in He4, He5, He7, Hr1, Hr2.
  rewrite Hdue, Hfail in He4, He5. cbn [andb] in He4, He5.
  rewrite He4 in Hr1, Hr2. cbn [andb] in Hr1, Hr2.
  rewrite Hdue in Hnext.
  repeat split.
  - cbn [set_loopStatics energyToday]. rewrite Hr5, Hs3, He5. reflexivity.
  - cbn [set_loopStatics energyTodayLastUpdate]. rewrite Hr6, Hs4, He5. reflexivity.
  - cbn [existsb is_http]. rewrite !existsb_app, He1, Hs1, Hr1. reflexivity.
  - exact Hr2.
  - right. apply in_or_app. left. now apply He7.
  - unfold deadline_of. cbn. exact Hnext.
Qed.

Lemma loop_deadline_step_any (k : Window) (i : LoopIn) (g : Globals) :
  deadline_of k (lo_globals (loop cfg lib i g)) =
  if window_due (window_clock cfg k i) (deadline k (loop_statics cfg i g))
  then window_advance (deadline k (loop_statics cfg i g)) (ULong.wrap (period cfg k))
  else deadline k (loop_statics cfg i g).
Proof.
  rewrite loop_eq. cbv zeta. unfold deadline_of. cbn [lo_globals set_loopStatics loopStatics].
  destruct k; cbn [deadline nextUpdateTime nextStatsTime window_clock period].
  - apply (loop_energy_window_next cfg).
  - apply (loop_stats_window_next cfg lib).
Qed.

Lemma run_loop_aligned (k : Window) (inputs : list LoopIn) :
  0 < period cfg k ->
  (forall i, In i inputs -> window_clock cfg k i + period cfg k < ULong.modulus) ->
  forall (g : Globals) (w : LoopStatics) (q : Z),
    loopStatics g = Some w ->
    0 <= q -> deadline k w = q * period cfg k ->
    exists q' : Z,
      q <= q'
      /\ deadline_of k (run_loop cfg lib inputs g) = q' * period cfg k.
Proof.
  intros Hp. induction inputs as [|i rest IH]; intros Hclock g w q Hw Hq Hd.
  - exists q. cbn. unfold deadline_of. rewrite Hw. split; [lia | exact Hd].
  - cbn [run_loop].
    destruct (loop_statics_after cfg lib i g) as [w1 Hw1].
    pose proof (loop_deadline_step cfg lib k i g w Hw) as Hstep.
    unfold deadline_of in Hstep. rewrite Hw1 in Hstep.
    pose proof (Hclock i (or_introl eq_refl)) as Hi.
    assert (Hrest : forall j, In j rest ->
              window_clock cfg k j + period cfg k < ULong.modulus)
      by (intros j Hj; apply Hclock; now right).
    unfold window_due, ULong.geb in Hstep.
    destruct (Z.leb_spec (deadline k w) (window_clock cfg k i)) as [Hdue|Hnot].
    + rewrite window_advance_exact in Hstep by nia.
      destruct (IH Hrest _ w1 (q + 1) Hw1) as (q' & Hq' & Heq); try lia; try nia.
      exists q'. split; [lia | exact Heq].
    + destruct (IH Hrest _ w1 q Hw1) as (q' & Hq' & Heq); try lia; try nia.
      exists q'. split; [lia | exact Heq].
Qed.

(** X15: from boot on, over every sequence of passes of [loop] in which the
    epoch time read stays more than one period below 2^32 (so that no
    deadline reaches 2^32), however long the sequence, the deadline of each
    window is a multiple of its period after the last pass and is after the
    epoch time read when the first pass initialised it: initialisation and
    the advances together keep the windows aligned. *)
Theorem deadlines_aligned_from_boot (k : Window) (i : LoopIn)
    (rest : list LoopIn) (g : Globals) :
  loopStatics g = None ->
  0 < period cfg k ->
  init_clock cfg k i + period cfg k < ULong.modulus ->
  (forall j, In j (i :: rest) ->
     window_clock cfg k j + period cfg k < ULong.modulus) ->
  deadline_of k (run_loop cfg lib (i :: rest) g) mod period cfg k = 0
  /\ init_clock cfg k i < deadline_of k (run_loop cfg lib (i :: rest) g).
Proof.
  intros Hnone Hp Hinit Hclock.
  set (P := period cfg k) in *. set (t := init_clock cfg k i) in *.
  assert (Ht : 0 <= t < ULong.modulus)
    by (subst t; destruct k; apply getEpochTime_range).
  assert (Hq : 0 <= t / P) by (apply Z.div_pos; lia).
  assert (Hle : t / P * P <= t).
  { pose proof (Z.mod_pos_bound t P Hp). pose proof (Z.div_mod t P). nia. }
  assert (Hlt : t < (t / P + 1) * P).
  { pose proof (Z.mod_pos_bound t P Hp). pose proof (Z.div_mod t P). nia. }
  assert (Hd0 : deadline k (loop_statics cfg i g) = (t / P + 1) * P).
  { unfold loop_statics. rewrite Hnone.
    assert (Hw : ULong.wrap P = P) by (apply wrap_small; lia).
    destruct k; cbn [deadline nextUpdateTime nextStatsTime];
      unfold period_pvoutput, period_stats; fold (period cfg EnergyWindow);
      fold (period cfg StatsWindow); fold P; rewrite Hw;
      fold (init_clock cfg EnergyWindow i); fold (init_clock cfg StatsWindow i);
      fold t; rewrite window_init_exact by lia; ring. }
  cbn [run_loop].
  destruct (loop_statics_after cfg lib i g) as [w1 Hw1].
  pose proof (loop_deadline_step_any k i g) as Hstep.
  unfold deadline_of in Hstep at 1. rewrite Hw1, Hd0 in Hstep. fold P in Hstep.
  pose proof (Hclock i (or_introl eq_refl)) as Hi. fold P in Hi.
  assert (H1 : exists q1, t / P + 1 <= q1 /\ deadline k w1 = q1 * P).
  { unfold window_due, ULong.geb in Hstep.
    destruct (Z.leb_spec ((t / P + 1) * P) (window_clock cfg k i)) as [Hdue|Hnot].
    - rewrite window_advance_exact in Hstep by nia.
      exists (t / P + 2). split; [lia | rewrite Hstep; ring].
    - exists (t / P + 1). split; [lia | exact Hstep]. }
  destruct H1 as (q1 & Hq1 & Hd1).
  assert (Hrest : forall j, In j rest ->
            window_clock cfg k j + period cfg k < ULong.modulus)
    by (intros j Hj; apply Hclock; now right).
  destruct (run_loop_aligned k rest Hp Hrest (lo_globals (loop cfg lib i g)) w1 q1 Hw1)
    as (q' & Hq' & Heq); try lia; try (fold P; exact Hd1).
  fold P in Heq. rewrite Heq. split.
  - apply Z.mod_mul. lia.
  - nia.
Qed.

End Pass.

(** ** Bootstrap *)

Lemma waitForWifi_returns (status : list bool) :
  returns (waitForWifi status) = existsb (fun b => b) status.
Proof.
  induction status as [|[|] rest IH]; cbn; try reflexivity.
  destruct (waitForWifi rest) as [[tr rest']|]; cbn in *; assumption.
Qed.

Lemma ntp_wait_returns (answers : list bool) :
  returns (ntp_wait answers) = existsb (fun b => b) answers.
Proof.
  induction answers as [|[|] rest IH]; cbn; try reflexivity.
  destruct (ntp_wait rest) as [[tr rest']|]; cbn in *; assumption.
Qed.

(** X16: [setup] comes back exactly when each of its three waits ends: the
    WiFi status is seen connected, a forced NTP update succeeds, and the
    broker link is seen up; otherwise it blocks for ever.  When it comes
    back it has only set the MAC text: the snapshot and the energy values
    are untouched and the deadlines of [loop] are not yet initialised, and
    its last actions are the two-second wait with the LED on, then LED off. *)
Theorem setup_returns_when_all_waits_end (cfg : Defs) (m : MacBytes)
    (wifi ntp : list bool) (link : list LinkObs) (g : Globals) :
  returns (setup cfg m wifi ntp link g) =
    existsb (fun b => b) wifi && existsb (fun b => b) ntp && existsb is_link_up link
  /\ forall (g' : Globals) (tr : list BootEvent),
       setup cfg m wifi ntp link g = Some (g', tr) ->
       g' = readWifiMac m g
       /\ loopStatics g' = loopStatics g
       /\ inverterStatus g' = inverterStatus g
       /\ exists front : list BootEvent,
            tr = (front ++ [LedOn; Steady (LoopDelay 2000); LedOff])%list.
Proof.
  pose proof (waitForWifi_returns wifi) as Hw.
  pose proof (ntp_wait_returns ntp) as Hn.
  pose proof (mqttConnectCheck_returns cfg (wifiMac (readWifiMac m g)) link) as Hl.
  unfold setup.
  destruct (waitForWifi wifi) as [[trW rW]|]; cbn in Hw; rewrite <- Hw;
    [|split; [reflexivity | discriminate]].
  destruct (ntp_wait ntp) as [[trN rN]|]; cbn in Hn; rewrite <- Hn;
    [|split; [reflexivity | discriminate]].
  destruct (mqttConnectCheck cfg _ link) as [[trM rM]|]; cbn in Hl; rewrite <- Hl;
    [|split; [reflexivity | discriminate]].
  split; [reflexivity|].
  intros g' tr H. injection H as <- <-.
  repeat split.
  exists ([BootDelay 1000; LedOn; SetInsecure; SerialBegin 115200; InverterBegin;
           BootDelay 1000; BootDelay 1000; BootDelay 1000;
           WifiBegin; Steady (LedFlashFast (-1))]
          ++ map Steady trW
          ++ [LedOn; NtpBegin; NtpSetUpdateInterval (5 * 60 * 1000)]
          ++ trN
          ++ [WebServerOn "/"; WebServerBegin; MqttSetServer; MqttSetCallback]
          ++ map Steady trM)%list.
  repeat rewrite <- app_assoc. reflexivity.
Qed.

(** ** What a stats cycle and a send leave alone *)

Section Frames.

Variable cfg : Defs.
Variable lib : Libs.

(** X17: a stats cycle changes no global but the snapshot text, online or
    not, and the energy value kept for the report has no influence on that
    text: the energy shown in the snapshot is the one the cycle read itself
    (its local variable hides the global of the same name). *)
Theorem stats_cycle_changes_only_the_snapshot (i : StatusIn) (g : Globals) :
  fst (inverterUpdateStatus cfg lib i g) =
    set_inverterStatus g (inverterStatus (fst (inverterUpdateStatus cfg lib i g)))
  /\ forall e e' t : Z,
       inverterStatus (fst (inverterUpdateStatus cfg lib i (set_energyToday g e t)))
       = inverterStatus (fst (inverterUpdateStatus cfg lib i (set_energyToday g e' t))).
Proof.
  unfold inverterUpdateStatus.
  destruct (inverterOnline (su_state i)); cbn [negb fst].
  - split; [reflexivity|]. intros e e' t. reflexivity.
  - split; [destruct g; reflexivity|]. intros e e' t. reflexivity.
Qed.

(** X18: [mqttSend] with [waitForConnection] false takes no look at the
    link, always comes back and does nothing but the one publish; with
    [waitForConnection] true it comes back exactly when the link is seen up
    at some point, and the publish of the message is then its last action,
    after every connection attempt. *)
Theorem mqttSend_waits_only_on_request (mac : string) (f : CStr.fmt1)
    (msg : string) (script : list LinkObs) :
  mqttSend cfg mac f msg false script =
    Some ([MqttPublish (mqttTopic cfg f) msg false], script)
  /\ returns (mqttSend cfg mac f msg true script) = existsb is_link_up script
  /\ forall (tr : list Event) (rest : list LinkObs),
       mqttSend cfg mac f msg true script = Some (tr, rest) ->
       exists front : list Event,
         mqttConnectCheck cfg mac script = Some (front, rest)
         /\ tr = (front ++ [MqttPublish (mqttTopic cfg f) msg false])%list.
Proof.
  split; [reflexivity|].
  pose proof (mqttConnectCheck_returns cfg mac script) as Hret.
  unfold mqttSend.
  destruct (mqttConnectCheck cfg mac script) as [[front rest0]|]; cbn in Hret.
  - split; [exact Hret|]. intros tr rest H. injection H as <- <-.
    exists front. split; reflexivity.
  - split; [exact Hret|]. intros tr rest H. discriminate.
Qed.

End Frames.

(** * The rest of the firmware on concrete runs *)

(** With an offset of ten hours, the last second of the 32-bit range. *)
Lemma local_time_round_trip_at_wrap :
  toLocalTime ex_defs_offset 4294967295 = 35999
  /\ fromLocalTime ex_defs_offset (toLocalTime ex_defs_offset 4294967295) = 4294967295
  /\ toLocalTime ex_defs_offset (fromLocalTime ex_defs_offset 4294967295) = 4294967295.
Proof.
  split; [reflexivity|].
  exact (local_time_round_trip ex_defs_offset 4294967295 ltac:(by_eval)).
Defined.

Lemma inverterSetTime_example :
  inverterSetTime ex_defs_offset (ex_setTime 1200)
  = (true, [InverterWriteTimeDate 1200]).
Proof.
  exact (inverterSetTime_writes_ntp_time ex_defs_offset (ex_setTime 1200)
           ltac:(by_eval)).
Defined.

(** A wait of one second begun 296 ms before the counter wraps. *)
Lemma runLoopDelay_across_wrap :
  runLoopDelay 1000 [4294967000; 4294967000; 204; 704; 714]
  = Some ([LoopHandlers; LoopHandlers], [714]).
Proof.
  refine (runLoopDelay_counts_elapsed_time 1000 4294967000 1000 [0; 500] [1010]
            _ ltac:(by_eval) ltac:(by_eval)).
  repeat constructor; by_eval.
Defined.

Lemma readWifiMac_example :
  String.length (wifiMac (readWifiMac ex_mac ex_globals)) = 12%nat
  /\ wifiMac (readWifiMac ex_mac ex_globals) = "a0b1c2d3e4f5"
  /\ decode_hex_pairs (wifiMac (readWifiMac ex_mac ex_globals))
     = [160; 177; 194; 211; 228; 245].
Proof.
  destruct (readWifiMac_round_trip ex_mac ex_globals
              ltac:(by_eval) ltac:(by_eval) ltac:(by_eval)
              ltac:(by_eval) ltac:(by_eval) ltac:(by_eval))
    as (Hlen & Hdec & _).
  split; [exact Hlen|]. split; [reflexivity | exact Hdec].
Defined.


Lemma mqttTopic_default_names :
  (String.length (MQTT_TOPIC default_defs) <= 51)%nat
  /\ mqttTopic default_defs mqttTopicStat = "tele/inverter/STAT"
  /\ mqttTopic default_defs mqttTopicPower = "tele/inverter/POWER"
  /\ (String.length (mqttTopic ex_defs_long_topic mqttTopicPower) <= 62)%nat.
Proof.
  assert (H : (String.length (MQTT_TOPIC default_defs) <= 51)%nat)
    by (cbn; repeat constructor).
  destruct (mqttTopic_distinct_when_short default_defs mqttTopicStat)
    as (_ & Hshort).
  destruct (Hshort H) as (_ & Hstat & Hpower & _).
  split; [exact H|]. split; [exact Hstat|]. split; [exact Hpower|].
  exact (proj1 (mqttTopic_distinct_when_short ex_defs_long_topic mqttTopicPower)).
Defined.

(** A name of 57 characters: every topic is tele/ followed by the name. *)
Lemma mqttTopic_long_name_example :
  mqttTopic ex_defs_long_topic mqttTopicStat
  = "tele/solar-inverter-on-the-north-roof-of-the-garden-workshop-1"
  /\ mqttTopic ex_defs_long_topic mqttTopicStat
     = mqttTopic ex_defs_long_topic mqttTopicPower.
Proof.
  assert (H : (57 <= String.length (MQTT_TOPIC ex_defs_long_topic))%nat)
    by (cbn; repeat constructor).
  destruct (mqttTopic_collide_when_long ex_defs_long_topic mqttTopicStat H eq_refl)
    as (Hcut & Hpower & _).
  split; [exact Hcut | exact Hpower].
Defined.

Lemma web_serves_published_snapshot_example :
  resp_code (webHandleRoot HTTP_GET ex_after_good_cycle) = 200
  /\ In (MqttPublish "tele/inverter/STAT"
           (resp_body (webHandleRoot HTTP_GET ex_after_good_cycle)) false)
        (snd (inverterUpdateStatus default_defs RefLibs.libs ex_status_ok ex_globals))
  /\ resp_code (webHandleRoot HTTP_POST ex_after_good_cycle) = 404.
Proof.
  destruct (web_serves_published_snapshot default_defs RefLibs.libs ex_status_ok
              ex_globals HTTP_POST eq_refl eq_refl)
    as (_ & Hin & H404).
  split; [reflexivity|]. split; [exact Hin|].
  unfold ex_after_good_cycle. rewrite (H404 eq_refl). reflexivity.
Defined.

(** Both windows due at epoch 1230 with the broker down: nothing is
    published, the report is delivered and the snapshot is refreshed. *)
Lemma loop_silent_when_broker_down_example :
  existsb is_mqtt_publish
    (lo_trace (loop default_defs RefLibs.libs (ex_pass_broker_down 1230) ex_both_due))
  = false
  /\ existsb is_http
       (lo_trace (loop default_defs RefLibs.libs (ex_pass_broker_down 1230) ex_both_due))
     = true
  /\ inverterStatus
       (lo_globals (loop default_defs RefLibs.libs (ex_pass_broker_down 1230) ex_both_due))
     <> inverterStatus ex_both_due.
Proof.
  destruct (loop_silent_when_broker_down default_defs RefLibs.libs
              (ex_pass_broker_down 1230) ex_both_due eq_refl eq_refl eq_refl)
    as (Hquiet & _).
  split; [exact Hquiet|]. split; [reflexivity|]. by_eval.
Defined.

(** Both windows due at epoch 1230 after a delivery at 902: the snapshot
    shows the read of 1230 and still the delivery of 902, while the globals
    already hold the delivery of this pass. *)
Lemma snapshot_lags_the_report_example :
  let out := loop default_defs RefLibs.libs (ex_pass 1230 200) ex_reported in
  let fields :=
    status_fields RefLibs.libs 1020 (cycle_readings ex_status_ok)
      (set_energyToday ex_reported 4200 1230) in
  inverterStatus (lo_globals out) = format_status fields
  /\ field_value "last_pvoutput_read" fields = Some "1230"
  /\ field_value "last_pvoutput_sent" fields = Some "902"
  /\ energyTodayLastPublished (lo_globals out) = 1230.
Proof.
  destruct (snapshot_shows_read_but_not_send default_defs RefLibs.libs
              (ex_pass 1230 200) ex_reported eq_refl eq_refl eq_refl eq_refl)
    as (Htext & Hread & Hsent & Hpub).
  split; [exact Htext|]. split; [exact Hread|]. split; [exact Hsent|].
  exact (Hpub eq_refl eq_refl eq_refl).
Defined.

(** The read due at 1200 fails: the reading of 4100 taken at 900 stays, the
    next attempt is at 1500. *)
Lemma failed_energy_read_example :
  let out := loop default_defs RefLibs.libs (ex_pass_read_failed 1200) ex_reported in
  energyToday (lo_globals out) = 4100
  /\ energyTodayLastUpdate (lo_globals out) = 900
  /\ existsb is_http (lo_trace out) = false
  /\ deadline_of EnergyWindow (lo_globals out) = 1500.
Proof.
  destruct (failed_energy_read_waits_a_period default_defs RefLibs.libs
              (ex_pass_read_failed 1200) ex_reported eq_refl eq_refl)
    as (He & Hu & Hh & _ & _ & Hd).
  split; [exact He|]. split; [exact Hu|]. split; [exact Hh | exact Hd].
Defined.

(** Boot at epoch 1000, then passes at 1200 and 1500, and twenty
    further passes at 1500 in which no window is due any more. *)
Lemma deadlines_aligned_from_boot_example :
  (deadline_of EnergyWindow
     (run_loop default_defs RefLibs.libs (ex_pass 1000 200 :: ex_long_run) ex_globals)
   = 1800
   /\ deadline_of StatsWindow
        (run_loop default_defs RefLibs.libs (ex_pass 1000 200 :: ex_long_run) ex_globals)
      = 1530)
  /\ (deadline_of EnergyWindow
        (run_loop default_defs RefLibs.libs (ex_pass 1000 200 :: ex_long_run) ex_globals)
      mod period default_defs EnergyWindow = 0
      /\ init_clock default_defs EnergyWindow (ex_pass 1000 200)
         < deadline_of EnergyWindow
             (run_loop default_defs RefLibs.libs (ex_pass 1000 200 :: ex_long_run)
                ex_globals))
  /\ (deadline_of StatsWindow
        (run_loop default_defs RefLibs.libs (ex_pass 1000 200 :: ex_long_run) ex_globals)
      mod period default_defs StatsWindow = 0
      /\ init_clock default_defs StatsWindow (ex_pass 1000 200)
         < deadline_of StatsWindow
             (run_loop default_defs RefLibs.libs (ex_pass 1000 200 :: ex_long_run)
                ex_globals)).
Proof.
  assert (Hclock : forall (k : Window) (j : LoopIn),
            In j (ex_pass 1000 200 :: ex_long_run) ->
            window_clock default_defs k j + period default_defs k < ULong.modulus).
  { intros k j [<-|[<-|[<-|Hj]]]; try (destruct k; reflexivity).
    apply repeat_spec in Hj. subst j. destruct k; reflexivity. }
  split; [split; by_eval|]. split.
  - exact (deadlines_aligned_from_boot default_defs RefLibs.libs EnergyWindow
             (ex_pass 1000 200) ex_long_run ex_globals
             eq_refl eq_refl eq_refl (Hclock EnergyWindow)).
  - exact (deadlines_aligned_from_boot default_defs RefLibs.libs StatsWindow
             (ex_pass 1000 200) ex_long_run ex_globals
             eq_refl eq_refl eq_refl (Hclock StatsWindow)).
Defined.

(** A bootstrap in which WiFi connects at the third look, the NTP update
    succeeds at once and the broker accepts the second attempt; and one in
    which the broker never accepts. *)
Example setup_runs :
  returns (setup default_defs ex_mac [false; false; true] [true]
             (ex_link_script ++ [LinkUp]) (initial_globals EmptyString)) = true
  /\ returns (setup default_defs ex_mac [false; false; true] [true]
                [LinkDown false; LinkDown false] (initial_globals EmptyString)) = false.
Proof. split; reflexivity. Qed.
